(** * slm_lab/lib/viz.py : the data visualization module

    A shallow embedding of the chart helpers of SLM-Lab.  Pure helpers
    ([create_label], [get_palette], [lower_opacity], [plot_mean_sr]) are
    functions into an error type; the operations that touch the process
    (the environment variable, the image export engine, the logger, the
    once-only warning) thread an explicit [world].

    Numbers of a series are IEEE binary64 floats, the kernel's primitive
    floats, with the rounding, the infinities and the NaN of the float64 of
    numpy and pandas. *)

From Stdlib Require Import ZArith Lia DecimalString.
From Corelib Require Import PrimFloat.
From stdpp Require Import base option list strings gmap.

#[local] Set Warnings "-inexact-float".

Local Open Scope string_scope.
Local Open Scope Z_scope.

(** ** Exceptions and results *)

(** The exceptions of the model; every one of them is an instance of
    Python's [Exception] class, which is what [except Exception] catches. *)
Inductive exn : Type :=
| KeyError (key : string)
| IndexError
| TypeError (what : string)
| AttributeError (name : string)
| ValueError (msg : string)
| OSError (msg : string).

Inductive result (A : Type) : Type :=
| Ok (a : A)
| Raise (e : exn).
Arguments Ok {A} a.
Arguments Raise {A} e.

#[global] Instance result_ret : MRet result := fun A a => Ok a.
#[global] Instance result_bind : MBind result := fun A B f r =>
  match r with
  | Ok a => f a
  | Raise e => Raise e
  end.

Definition is_ok {A} (r : result A) : bool :=
  match r with Ok _ => true | Raise _ => false end.

(** ** Python strings *)

(** [str(n)] for a Python int. *)
Definition str_int (n : Z) : string := NilZero.string_of_int (Z.to_int n).

(** A float given as a short decimal literal without exponent, such as
    [0.2]: its integer part and the digits of its fraction.  The literals
    meant are those [str] gives back digit for digit: at most fifteen
    significant digits, a magnitude from 0.0001 up to 1e16, no infinity and
    no NaN.  (A literal between -1 and 0 has no place for its sign here;
    the module has none.) *)
Record pyfloat : Type := PyFloat { float_int : Z; float_frac : Decimal.uint }.

(** [str] of such a float, when it prints without exponent: the integer
    part, the point, and the digits of the fraction up to the last one
    that is not zero, [0] if there is none. *)
Definition str_float (f : pyfloat) : string :=
  str_int (float_int f) ++ "."
  ++ NilZero.string_of_uint
       (Decimal.rev (Decimal.nzhead (Decimal.rev (float_frac f)))).

(** [s.replace(old, new)] with an empty [old]: [new] goes before every
    character and at the end. *)
Fixpoint str_intersperse (new s : string) : string :=
  match s with
  | EmptyString => new
  | String c s' => new ++ String c (str_intersperse new s')
  end.

(** [s.replace(old, new)], left to right over non-overlapping occurrences;
    [skip] counts the characters of an occurrence still to be dropped. *)
Fixpoint str_replace_go (old new : string) (skip : nat) (s : string) : string :=
  match s with
  | EmptyString => EmptyString
  | String c s' =>
      match skip with
      | S k => str_replace_go old new k s'
      | O =>
          if String.prefix old s
          then new ++ str_replace_go old new (Nat.pred (String.length old)) s'
          else String c (str_replace_go old new O s')
      end
  end.

Definition str_replace (old new s : string) : string :=
  match old with
  | EmptyString => str_intersperse new s
  | _ => str_replace_go old new O s
  end.

(** ** colorlover *)

(** A color is its CSS text, such as ['rgb(102,194,165)']. *)
Abbreviation color := string (only parsing).
Abbreviation palette := (list string) (only parsing).

Module cl.

(** ColorBrewer's qualitative scale Set2 with eight colors. *)
Definition Set2_8 : palette :=
  [ "rgb(102,194,165)"; "rgb(252,141,98)"; "rgb(141,160,203)";
    "rgb(231,138,195)"; "rgb(166,216,84)"; "rgb(255,217,47)";
    "rgb(229,196,148)"; "rgb(179,179,179)" ].

(** [cl.scales[key]['qual']['Set2']].  [cl.scales] has the keys '3' to
    '12'; Set2 is defined for three to eight colors, each scale being a
    prefix of the next. *)
Definition scales_qual_Set2 (key : string) : result palette :=
  if decide (key = "3") then Ok (take 3 Set2_8)
  else if decide (key = "4") then Ok (take 4 Set2_8)
  else if decide (key = "5") then Ok (take 5 Set2_8)
  else if decide (key = "6") then Ok (take 6 Set2_8)
  else if decide (key = "7") then Ok (take 7 Set2_8)
  else if decide (key = "8") then Ok Set2_8
  else if bool_decide (key ∈ ["9"; "10"; "11"; "12"]) then Raise (KeyError "Set2")
  else Raise (KeyError key).

End cl.

(** ** Data handed in by the caller, and chart records *)

(** A pandas Series of numbers, float64. *)
Abbreviation series := (list float) (only parsing).

(** A column argument of [create_label]: one name or a list of names. *)
Inductive col : Type :=
| Name (s : string)
| Names (l : list string).

(** An entry of a metrics dict, and what a trace may be given to draw: one
    series, or a list of series (one per session). *)
Inductive pyval : Type :=
| VSeries (sr : series)
| VSeriesList (sr_list : list series).

Record label : Type := Label {
  label_y_title : string;
  label_x_title : string;
  label_title : string;
  y_col_list : list string;
  x_col_list : list string;
  legend_name_list : list string }.

Record line : Type := Line { line_color : string; line_width : option Z }.

(** [go.Scatter], with the attributes this module sets. *)
Record scatter : Type := Scatter {
  sc_x : list float;
  sc_y : pyval;
  sc_mode : option string;
  sc_showlegend : bool;
  sc_line : line;
  sc_fill : option string;
  sc_fillcolor : option string }.

Record legend : Type :=
  Legend { legend_x : float; legend_y : float; orientation : string }.
Record yaxis : Type := YAxis { rangemode : string; yaxis_title : string }.
Record xaxis : Type := XAxis { xaxis_type : option string; xaxis_title : string }.
Record margin : Type := Margin { margin_l : Z; margin_r : Z; margin_t : Z; margin_b : Z }.

(** [go.Layout]. *)
Record layout : Type := Layout {
  layout_title : string;
  layout_legend : legend;
  layout_yaxis : yaxis;
  layout_xaxis : xaxis;
  layout_width : Z;
  layout_height : Z;
  layout_margin : margin }.

(** [go.Figure(data, layout)]. *)
Record figure : Type := Figure { fig_data : list scatter; fig_layout : layout }.

Record meta_spec : Type := MetaSpec {
  prepath : string;
  trial : Z;
  session : Z;
  max_session : Z }.

(** The spec dict of a session or a trial: [spec['name']], [spec['meta']]. *)
Record spec : Type := Spec { spec_name : string; spec_meta : meta_spec }.

(** ** What the module calls and does not define

    [slm_lab.lib.util], colorlover's interpolation of a scale, and plotly's
    renderer and image export engine are not part of this file; they are
    the interface the module is verified against. *)
Class Externals : Type := {
  (** state of the disk and of the export engine *)
  ext_state : Type;
  (** colorlover's [cl.interp(scl, r)] for an int [r]: the scale [scl]
      interpolated to a new one *)
  interp : list string -> Z -> result (list string);
  (** [util.cast_list] *)
  cast_list : col -> list string;
  (** [util.calc_srs_mean_std]: the mean and the std series *)
  calc_srs_mean_std : list series -> series * series;
  (** [util.smart_path] *)
  smart_path : string -> string;
  (** [util.is_jupyter()] *)
  is_jupyter : bool;
  (** [py.iplot(fig, **kwargs)] *)
  py_iplot : figure -> option bool -> ext_state -> ext_state;
  (** [py.plot(fig, auto_open=...)] *)
  py_plot : figure -> bool -> ext_state -> ext_state;
  (** [pio.write_image(figure, filepath)]: the new state, and the
      exception it raised if the export failed *)
  pio_write_image : figure -> string -> ext_state -> ext_state * option exn }.

(** ** Truthiness *)

(** [a or b] where [a] is an optional string: [None] and [''] are falsy. *)
Definition or_str (a : option string) (b : string) : string :=
  match a with
  | Some EmptyString | None => b
  | Some s => s
  end.

(** [a or b] where [a] is an optional column: [None], [''] and [[]] are
    falsy. *)
Definition or_col (a : option col) (b : col) : col :=
  match a with
  | None | Some (Name EmptyString) | Some (Names []) => b
  | Some c => c
  end.

(** [l[i]] for a non-negative index. *)
Definition index {A} (l : list A) (i : nat) : result A :=
  match l !! i with
  | Some a => Ok a
  | None => Raise IndexError
  end.

(** [d[k]] on a dict with string keys. *)
Definition getitem {A} (d : gmap string A) (k : string) : result A :=
  match d !! k with
  | Some a => Ok a
  | None => Raise (KeyError k)
  end.

(** [time_sr.tolist()]: a series has the method, a list has not. *)
Definition as_series (v : pyval) : result series :=
  match v with
  | VSeries sr => Ok sr
  | VSeriesList _ => Raise (AttributeError "tolist")
  end.

(** The list of series [util.calc_srs_mean_std] takes. *)
Definition as_series_list (v : pyval) : result (list series) :=
  match v with
  | VSeriesList l => Ok l
  | VSeries _ => Raise (TypeError "list of series expected")
  end.

(** Pointwise sum and difference of two series on one index, in float64
    arithmetic. *)
Definition sr_add (a b : series) : series := zip_with PrimFloat.add a b.
Definition sr_sub (a b : series) : series := zip_with PrimFloat.sub a b.

Definition lower_opacity (rgb : string) (opacity : pyfloat) : string :=
  str_replace ")" ("," ++ str_float opacity ++ ")")
    (str_replace "rgb(" "rgba(" rgb).

Section Viz.
Context {ext : Externals}.

Definition create_label (y_col x_col : col)
    (title y_title x_title : option string) (legend_name : option col)
    : label :=
  let legend_name := or_col legend_name y_col in
  let y_col_list := cast_list y_col in
  let x_col_list := cast_list x_col in
  let legend_name_list := cast_list legend_name in
  let y_title := or_str y_title (String.concat "," y_col_list) in
  let x_title := or_str x_title (String.concat "," x_col_list) in
  let title := or_str title (y_title ++ " vs " ++ x_title) in
  {| label_y_title := y_title;
     label_x_title := x_title;
     label_title := title;
     y_col_list := y_col_list;
     x_col_list := x_col_list;
     legend_name_list := legend_name_list |}.

(** [layout_kwargs] is the update applied by [layout.update]; [None]
    updates nothing. *)
Definition create_layout (title y_title x_title : string)
    (x_type : option string) (width height : Z)
    (layout_kwargs : option (layout -> layout)) : layout :=
  let layout :=
    {| layout_title := title;
       layout_legend := Legend 0%float (-0.25)%float "h";
       layout_yaxis := YAxis "tozero" y_title;
       layout_xaxis := XAxis x_type x_title;
       layout_width := width;
       layout_height := height;
       layout_margin := Margin 60 60 60 60 |} in
  match layout_kwargs with
  | Some update => update layout
  | None => layout
  end.

Definition get_palette (aeb_count : Z) : result palette :=
  if decide (aeb_count <= 8)
  then cl.scales_qual_Set2 (str_int (Z.max 3 aeb_count))
  else
    scl ← cl.scales_qual_Set2 "8";
    interp scl aeb_count.

(** The opacity of the error band, [0.2]. *)
Definition band_opacity : pyfloat := PyFloat 0 (Decimal.D2 Decimal.Nil).

Definition plot_mean_sr (sr_list time_sr : pyval)
    (title y_title x_title : string) : result figure :=
  sr_list ← as_series_list sr_list;
  let '(mean_sr, std_sr) := calc_srs_mean_std sr_list in
  let max_sr := sr_add mean_sr std_sr in
  let min_sr := sr_sub mean_sr std_sr in
  let max_y := max_sr in
  let min_y := min_sr in
  x ← as_series time_sr;
  pal ← get_palette 1;
  color ← index pal 0;
  let main_trace :=
    {| sc_x := x; sc_y := VSeries mean_sr; sc_mode := Some "lines";
       sc_showlegend := false;
       sc_line := Line color (Some 1);
       sc_fill := None; sc_fillcolor := None |} in
  let envelope_trace :=
    {| sc_x := x ++ reverse x; sc_y := VSeries (max_y ++ reverse min_y);
       sc_mode := None; sc_showlegend := false;
       sc_line := Line "rgba(0, 0, 0, 0)" None;
       sc_fill := Some "tozerox";
       sc_fillcolor := Some (lower_opacity color band_opacity) |} in
  let data := [main_trace; envelope_trace] in
  let layout := create_layout title y_title x_title None 500 600 None in
  mret (Figure data layout).

(** *** The process: environment, disk, what was called, the flag *)

(** The calls that leave the module, in the order they are made; an
    export is recorded with the exception it raised, if any. *)
Inductive event : Type :=
| EvIplot (fig : figure) (auto_open : option bool)
| EvPlot (fig : figure) (auto_open : bool)
| EvWriteImage (fig : figure) (filepath : string) (failure : option exn)
| EvWarning (msg : string).

Record world : Type := World {
  (** [os.environ] *)
  environ : gmap string string;
  disk : ext_state;
  trace : list event;
  (** the [called] flag of [ps.once], the only state the module owns *)
  once_called : bool }.

Definition M (A : Type) : Type := world -> result A * world.

#[global] Instance M_ret : MRet M := fun A a w => (Ok a, w).
#[global] Instance M_bind : MBind M := fun A B f m w =>
  match m w with
  | (Ok a, w') => f a w'
  | (Raise e, w') => (Raise e, w')
  end.

Definition lift {A} (r : result A) : M A := fun w => (r, w).

Definition emit (e : event) : M unit := fun w =>
  (Ok tt, World (environ w) (disk w) (trace w ++ [e]) (once_called w)).

Definition on_disk (f : ext_state -> ext_state) : M unit := fun w =>
  (Ok tt, World (environ w) (f (disk w)) (trace w) (once_called w)).

(** [try: body except Exception as e: handler(e)] *)
Definition try_except {A} (body : M A) (handler : exn -> M A) : M A :=
  fun w =>
    match body w with
    | (Ok a, w') => (Ok a, w')
    | (Raise e, w') => handler e w'
    end.

(** [for x in xs: body(x)] *)
Fixpoint for_each {A} (xs : list A) (body : A -> M unit) : M unit :=
  match xs with
  | [] => mret tt
  | x :: xs' => body x;; for_each xs' body
  end.

(** [os.environ[key]] *)
Definition os_environ (key : string) : M string := fun w =>
  (getitem (environ w) key, w).

Definition warning_msg : string :=
  "Failed to generate graph. Run retro-analysis to generate graphs later.".

Definition logger_warning (msg : string) : M unit := emit (EvWarning msg).

(** [orca_warn_once = ps.once(lambda e: logger.warning(...))]: the
    function runs on the first call only, and the flag is set when it has
    returned. *)
Definition orca_warn_once (e : exn) : M unit := fun w =>
  if once_called w then (Ok tt, w)
  else
    match logger_warning warning_msg w with
    | (Ok r, w') => (Ok r, World (environ w') (disk w') (trace w') true)
    | (Raise e', w') => (Raise e', w')
    end.

(** [plot(fig, **kwargs)]; [auto_open] is the entry of [kwargs]. *)
Definition plot (fig : figure) (auto_open : option bool) : M unit :=
  if is_jupyter
  then emit (EvIplot fig auto_open);; on_disk (py_iplot fig auto_open)
  else
    let auto_open := default false auto_open in
    emit (EvPlot fig auto_open);; on_disk (py_plot fig auto_open).

Definition plot_sr (sr time_sr : pyval) (title y_title x_title : string)
    : M figure :=
  x ← lift (as_series time_sr);
  pal ← lift (get_palette 1);
  color ← lift (index pal 0);
  let main_trace :=
    {| sc_x := x; sc_y := sr; sc_mode := Some "lines";
       sc_showlegend := false;
       sc_line := Line color (Some 1);
       sc_fill := None; sc_fillcolor := None |} in
  let data := [main_trace] in
  let layout := create_layout title y_title x_title None 500 600 None in
  let fig := Figure data layout in
  plot fig None;;
  mret fig.

(** [pio.write_image(figure, filepath)] *)
Definition write_image (fig : figure) (filepath : string) : M unit :=
  fun w =>
    let '(d, failure) := pio_write_image fig filepath (disk w) in
    let w' := World (environ w) d
                (trace w ++ [EvWriteImage fig filepath failure])
                (once_called w) in
    match failure with
    | None => (Ok tt, w')
    | Some e => (Raise e, w')
    end.

Definition save_image (figure : figure) (filepath : string) : M unit :=
  py_env ← os_environ "PY_ENV";
  if decide (py_env = "test") then mret tt
  else
    let filepath := smart_path filepath in
    try_except (write_image figure filepath) (fun e => orca_warn_once e).

(** *** analysis plot methods *)

Definition session_name_time_pairs : list (string * string) :=
  [ ("mean_returns", "frames");
    ("strengths", "frames");
    ("sample_efficiencies", "frames");
    ("training_efficiencies", "opt_steps");
    ("stabilities", "frames") ].

Definition session_df_name_time_pairs : list (string * string) :=
  [ ("loss", "total_t");
    ("explore_var", "total_t");
    ("entropy", "total_t") ].

Definition session_title (session_spec : spec) : string :=
  let meta_spec := spec_meta session_spec in
  "session graph: " ++ spec_name session_spec ++ " t" ++ str_int (trial meta_spec)
    ++ " s" ++ str_int (session meta_spec).

Definition session_filepath (prepath df_mode name time : string) : string :=
  prepath ++ "_session_graph_" ++ df_mode ++ "_" ++ name ++ "_vs_" ++ time ++ ".png".

Definition plot_session (session_spec : spec)
    (session_metrics : gmap string (gmap string pyval))
    (session_df : gmap string series) (df_mode : string) : M unit :=
  let meta_spec := spec_meta session_spec in
  let prepath := prepath meta_spec in
  let title := session_title session_spec in
  local_metrics ← lift (getitem session_metrics "local");
  for_each session_name_time_pairs (fun '(name, time) =>
    sr ← lift (getitem local_metrics name);
    time_sr ← lift (getitem local_metrics time);
    fig ← plot_sr sr time_sr title name time;
    save_image fig (session_filepath prepath df_mode name time));;
  if decide (df_mode = "eval") then mret tt
  else
    for_each session_df_name_time_pairs (fun '(name, time) =>
      sr ← lift (getitem session_df name);
      time_sr ← lift (getitem session_df time);
      fig ← plot_sr (VSeries sr) (VSeries time_sr) title name time;
      save_image fig (session_filepath prepath df_mode name time)).

Definition trial_name_time_pairs : list (string * string) :=
  [ ("mean_returns", "frames");
    ("strengths", "frames");
    ("sample_efficiencies", "frames");
    ("training_efficiencies", "opt_steps");
    ("stabilities", "frames");
    ("consistencies", "frames") ].

Definition trial_title (trial_spec : spec) : string :=
  let meta_spec := spec_meta trial_spec in
  "trial graph: " ++ spec_name trial_spec ++ " t" ++ str_int (trial meta_spec)
    ++ " " ++ str_int (max_session meta_spec) ++ " sessions".

Definition trial_filepath (prepath name time : string) : string :=
  prepath ++ "_trial_graph_" ++ name ++ "_vs_" ++ time ++ ".png".

Definition plot_trial (trial_spec : spec)
    (trial_metrics : gmap string (gmap string pyval)) : M unit :=
  let meta_spec := spec_meta trial_spec in
  let prepath := prepath meta_spec in
  let title := trial_title trial_spec in
  local_metrics ← lift (getitem trial_metrics "local");
  for_each trial_name_time_pairs (fun '(name, time) =>
    fig ←
      (if decide (name = "consistencies")
       then
         sr ← lift (getitem local_metrics name);
         time_sr ← lift (getitem local_metrics time);
         plot_sr sr time_sr title name time
       else
         sr_list ← lift (getitem local_metrics name);
         time_sr ← lift (getitem local_metrics time);
         lift (plot_mean_sr sr_list time_sr title name time));
    save_image fig (trial_filepath prepath name time)).

(** *** A process using the module *)

(** A call of one of the module's functions, with its arguments. *)
Inductive call : Type :=
| CallCreateLabel (y_col x_col : col) (title y_title x_title : option string)
    (legend_name : option col)
| CallGetPalette (aeb_count : Z)
| CallLowerOpacity (rgb : string) (opacity : pyfloat)
| CallPlot (fig : figure) (auto_open : option bool)
| CallPlotSr (sr time_sr : pyval) (title y_title x_title : string)
| CallPlotMeanSr (sr_list time_sr : pyval) (title y_title x_title : string)
| CallSaveImage (fig : figure) (filepath : string)
| CallPlotSession (session_spec : spec)
    (session_metrics : gmap string (gmap string pyval))
    (session_df : gmap string series) (df_mode : string)
| CallPlotTrial (trial_spec : spec)
    (trial_metrics : gmap string (gmap string pyval)).

(** What a call returns. *)
Inductive value : Type :=
| RNone
| RLabel (l : label)
| RPalette (p : palette)
| RStr (s : string)
| RFigure (fig : figure).

Definition exec (c : call) : M value :=
  match c with
  | CallCreateLabel y_col x_col title y_title x_title legend_name =>
      mret (RLabel (create_label y_col x_col title y_title x_title legend_name))
  | CallGetPalette aeb_count => p ← lift (get_palette aeb_count); mret (RPalette p)
  | CallLowerOpacity rgb opacity => mret (RStr (lower_opacity rgb opacity))
  | CallPlot fig auto_open => plot fig auto_open;; mret RNone
  | CallPlotSr sr time_sr title y_title x_title =>
      fig ← plot_sr sr time_sr title y_title x_title; mret (RFigure fig)
  | CallPlotMeanSr sr_list time_sr title y_title x_title =>
      fig ← lift (plot_mean_sr sr_list time_sr title y_title x_title);
      mret (RFigure fig)
  | CallSaveImage fig filepath => save_image fig filepath;; mret RNone
  | CallPlotSession session_spec session_metrics session_df df_mode =>
      plot_session session_spec session_metrics session_df df_mode;; mret RNone
  | CallPlotTrial trial_spec trial_metrics =>
      plot_trial trial_spec trial_metrics;; mret RNone
  end.

(** The world after a sequence of calls; a caller that goes on after an
    exception sees the world the failed call left. *)
Fixpoint run (cs : list call) (w : world) : world :=
  match cs with
  | [] => w
  | c :: cs' => run cs' (exec c w).2
  end.

(** The world when the module has just been imported. *)
Definition fresh (env : gmap string string) (d : ext_state) : world :=
  World env d [] false.

Definition is_warning (e : event) : bool :=
  match e with EvWarning _ => true | _ => false end.

(** How many warnings were logged. *)
Definition warnings (w : world) : nat :=
  length (filter (fun e => is_warning e = true) (trace w)).

(** The image exports that were asked of the engine, in order. *)
Definition exports (w : world) : list (figure * string) :=
  omap (fun e => match e with
                 | EvWriteImage fig filepath _ => Some (fig, filepath)
                 | _ => None
                 end) (trace w).

Definition is_failure (e : event) : bool :=
  match e with EvWriteImage _ _ (Some _) => true | _ => false end.

(** How many exports failed. *)
Definition failures (w : world) : nat :=
  length (filter (fun e => is_failure e = true) (trace w)).

(** The flag is up exactly when an export has failed, and the warning
    has been logged once if one has, and never otherwise. *)
Definition flag_inv (w : world) : Prop :=
  once_called w = bool_decide (0 < failures w)%nat
  /\ warnings w = Nat.min 1 (failures w).

(** What a call of the module may do to the world: the environment
    stays, the flag never goes down, and [flag_inv] is kept. *)
Definition evolves (w w' : world) : Prop :=
  environ w' = environ w
  /\ (once_called w = true -> once_called w' = true)
  /\ (flag_inv w -> flag_inv w').

Definition frame {A} (m : M A) : Prop := forall w, evolves w (m w).2.

(** The events of a trace that are no warnings: the figures shown and the
    exports asked for. *)
Definition calls_made (t : list event) : list event :=
  filter (fun e => is_warning e = false) t.

(** [m] does not look at the flag, nor at what happened before: from two
    worlds with the same environment and the same disk, whatever their
    flags and their traces, it returns the same, leaves the same
    environment and the same disk, and adds to the two traces the same
    events, warnings apart. *)
Definition flag_blind {A} (m : M A) : Prop :=
  forall w1 w2 : world,
    environ w1 = environ w2 -> disk w1 = disk w2 ->
    (m w1).1 = (m w2).1
    /\ environ (m w1).2 = environ (m w2).2
    /\ disk (m w1).2 = disk (m w2).2
    /\ exists t1 t2 : list event,
         trace (m w1).2 = (trace w1 ++ t1)%list
         /\ trace (m w2).2 = (trace w2 ++ t2)%list
         /\ calls_made t1 = calls_made t2.


(** The figure [plot_sr] builds from a series and its time axis. *)
Definition sr_figure (sr time_sr : series) (title y_title x_title : string)
    : figure :=
  Figure
    [ {| sc_x := time_sr; sc_y := VSeries sr; sc_mode := Some "lines";
         sc_showlegend := false;
         sc_line := Line "rgb(102,194,165)" (Some 1);
         sc_fill := None; sc_fillcolor := None |} ]
    (create_layout title y_title x_title None 500 600 None).

End Viz.

(** ** What a run shows, what it exports *)

From Stdlib Require Import Ascii.

(** Whether the character [c] occurs in [s]. *)
Fixpoint str_has (c : Ascii.ascii) (s : string) : bool :=
  match s with
  | EmptyString => false
  | String a s' => if Ascii.eqb a c then true else str_has c s'
  end.

(** The series a metrics dict holds under a key, and the list of series. *)
Definition series_of (d : gmap string pyval) (k : string) : list float :=
  match d !! k with
  | Some (VSeries sr) => sr
  | _ => []
  end.

Definition series_list_of (d : gmap string pyval) (k : string) : list (list float) :=
  match d !! k with
  | Some (VSeriesList sr_list) => sr_list
  | _ => []
  end.

Definition has_series (d : gmap string pyval) (k : string) : Prop :=
  exists sr, d !! k = Some (VSeries sr).

Definition has_series_list (d : gmap string pyval) (k : string) : Prop :=
  exists sr_list, d !! k = Some (VSeriesList sr_list).

(** A column of the session data frame. *)
Definition column_of (df : gmap string (list float)) (k : string) : list float :=
  default [] (df !! k).

Section Observations.
Context {ext : Externals}.

(** The figures handed to [py.plot] or [py.iplot], in order. *)
Definition shown (w : world) : list figure :=
  omap (fun e => match e with
                 | EvIplot fig _ | EvPlot fig _ => Some fig
                 | _ => None
                 end) (trace w).

(** [m] ends with [r] from [w], leaves the environment alone, shows the
    figures [figs] and asks the export engine for the images [images], in
    this order, and no others. *)
Definition effects (m : M unit) (w : world) (r : result unit)
    (figs : list figure) (images : list (figure * string)) : Prop :=
  exists w', m w = (r, w')
    /\ environ w' = environ w
    /\ shown w' = (shown w ++ figs)%list
    /\ exports w' = (exports w ++ images)%list.

(** What [save_image] asks of the export engine when [PY_ENV] is [v]. *)
Definition saved (v : string) (fig : figure) (filepath : string)
    : list (figure * string) :=
  if decide (v = "test") then [] else [(fig, smart_path filepath)].

(** The environment keeps [save_image] away from the export engine: this
    is a test run, or [PY_ENV] is not set. *)
Definition gated (w : world) : Prop :=
  environ w !! "PY_ENV" = Some "test" \/ environ w !! "PY_ENV" = None.

(** Nothing was exported or logged from [w] to [w'], and the environment
    and the flag are as they were. *)
Definition untouched (w w' : world) : Prop :=
  environ w' = environ w
  /\ once_called w' = once_called w
  /\ exports w' = exports w
  /\ warnings w' = warnings w.

Definition silent {A} (m : M A) : Prop :=
  forall w, gated w -> untouched w (m w).2.

(** The envelope trace [plot_mean_sr] draws around a mean. *)
Definition envelope_of (mean_sr std_sr time_sr : list float) : scatter :=
  {| sc_x := time_sr ++ reverse time_sr;
     sc_y := VSeries (sr_add mean_sr std_sr ++ reverse (sr_sub mean_sr std_sr));
     sc_mode := None; sc_showlegend := false;
     sc_line := Line "rgba(0, 0, 0, 0)" None;
     sc_fill := Some "tozerox";
     sc_fillcolor := Some "rgba(102,194,165,0.2)" |}.

(** The figure [plot_mean_sr] builds from a list of series and their time
    axis. *)
Definition mean_sr_figure (sr_list : list (list float)) (time_sr : list float)
    (title y_title x_title : string) : figure :=
  let '(mean_sr, std_sr) := calc_srs_mean_std sr_list in
  Figure
    (fig_data (sr_figure mean_sr time_sr title y_title x_title)
     ++ [envelope_of mean_sr std_sr time_sr])
    (create_layout title y_title x_title None 500 600 None).

(** The chart [plot_trial] makes for a pair, and the charts [plot_session]
    makes from the metrics and from the data frame. *)
Definition trial_chart (local_metrics : gmap string pyval) (title : string)
    (pair : string * string) : figure :=
  let '(name, time) := pair in
  if decide (name = "consistencies")
  then sr_figure (series_of local_metrics name) (series_of local_metrics time)
         title name time
  else mean_sr_figure (series_list_of local_metrics name)
         (series_of local_metrics time) title name time.

Definition session_chart (local_metrics : gmap string pyval) (title : string)
    (pair : string * string) : figure :=
  let '(name, time) := pair in
  sr_figure (series_of local_metrics name) (series_of local_metrics time)
    title name time.

Definition session_df_chart (session_df : gmap string (list float)) (title : string)
    (pair : string * string) : figure :=
  let '(name, time) := pair in
  sr_figure (column_of session_df name) (column_of session_df time)
    title name time.

(** The charts [plot_session] makes, each with the file path it hands to
    [save_image]: those of the metrics, then, unless [df_mode] is ['eval'],
    those of the data frame. *)
Definition session_metrics_jobs (session_spec : spec)
    (local_metrics : gmap string pyval) (df_mode : string)
    (pairs : list (string * string)) : list (figure * string) :=
  map (fun pair : string * string =>
         (session_chart local_metrics (session_title session_spec) pair,
          session_filepath (prepath (spec_meta session_spec)) df_mode pair.1 pair.2))
      pairs.

Definition session_df_jobs (session_spec : spec)
    (session_df : gmap string (list float)) (df_mode : string)
    (pairs : list (string * string)) : list (figure * string) :=
  map (fun pair : string * string =>
         (session_df_chart session_df (session_title session_spec) pair,
          session_filepath (prepath (spec_meta session_spec)) df_mode pair.1 pair.2))
      pairs.

Definition session_jobs (session_spec : spec)
    (local_metrics : gmap string pyval) (session_df : gmap string (list float))
    (df_mode : string) : list (figure * string) :=
  session_metrics_jobs session_spec local_metrics df_mode session_name_time_pairs
  ++ (if decide (df_mode = "eval") then []
      else session_df_jobs session_spec session_df df_mode
             session_df_name_time_pairs).

(** The charts [plot_trial] makes, each with its file path. *)
Definition trial_jobs (trial_spec : spec) (local_metrics : gmap string pyval)
    (pairs : list (string * string)) : list (figure * string) :=
  map (fun pair : string * string =>
         (trial_chart local_metrics (trial_title trial_spec) pair,
          trial_filepath (prepath (spec_meta trial_spec)) pair.1 pair.2))
      pairs.

(** What the export engine is asked for a list of charts and paths. *)
Definition saved_jobs (v : string) (jobs : list (figure * string))
    : list (figure * string) :=
  concat (map (fun job : figure * string => saved v job.1 job.2) jobs).

(** The metrics entries a round of [plot_session] or [plot_trial] reads. *)
Definition session_pair_ok (local_metrics : gmap string pyval)
    (pair : string * string) : Prop :=
  has_series local_metrics pair.1 /\ has_series local_metrics pair.2.

Definition session_df_pair_ok (session_df : gmap string (list float))
    (pair : string * string) : Prop :=
  is_Some (session_df !! pair.1) /\ is_Some (session_df !! pair.2).

Definition trial_pair_ok (local_metrics : gmap string pyval)
    (pair : string * string) : Prop :=
  (if decide (pair.1 = "consistencies")
   then has_series local_metrics pair.1
   else has_series_list local_metrics pair.1)
  /\ has_series local_metrics pair.2.

End Observations.

(** ** A sample instance of the interface

    Enough of an environment to run the definitions: the export engine
    fails on an empty file name and records the file otherwise. *)
Definition sample_cast_list (c : col) : list string :=
  match c with
  | Name s => [s]
  | Names l => l
  end.

(** A stand-in for colorlover's interpolation: [r] colors, the [k]-th at
    position [k * (len - 1) / (r - 1)] of the scale, a color of the scale
    where the position is whole and a mark of its two neighbours
    elsewhere. *)
Definition sample_interp (scl : list string) (r : Z) : result (list string) :=
  Ok (map (fun k =>
             let at_k := Z.of_nat k * Z.of_nat (Nat.pred (length scl)) in
             let a := default "" (scl !! Z.to_nat (at_k / (r - 1))) in
             if decide (at_k mod (r - 1) = 0) then a
             else a ++ "~" ++ default "" (scl !! S (Z.to_nat (at_k / (r - 1)))))
          (seq 0 (Z.to_nat r))).

(** A stand-in for [util.calc_srs_mean_std]: row by row over the index of
    the first series, the mean and the sample standard deviation (one
    degree of freedom less) of the values the series have there, in
    float64 and summed from the left. *)
Definition float_sum (l : list float) : float :=
  foldl PrimFloat.add 0%float l.

Definition float_count (l : list float) : float :=
  foldl (fun n _ => PrimFloat.add n 1%float) 0%float l.

Definition float_mean (l : list float) : float :=
  PrimFloat.div (float_sum l) (float_count l).

Definition float_std (l : list float) : float :=
  let m := float_mean l in
  PrimFloat.sqrt
    (PrimFloat.div
       (float_sum (map (fun v => PrimFloat.mul (PrimFloat.sub v m)
                                               (PrimFloat.sub v m)) l))
       (PrimFloat.sub (float_count l) 1%float)).

Definition sample_mean_std (sr_list : list series) : series * series :=
  let rows :=
    map (fun i => omap (fun sr : series => sr !! i) sr_list)
        (seq 0 (length (default [] (head sr_list)))) in
  (map float_mean rows, map float_std rows).

Definition sample_write_image (fig : figure) (filepath : string)
    (files : list string) : list string * option exn :=
  if decide (filepath = "") then (files, Some (ValueError "orca"))
  else ((files ++ [filepath])%list, None).

Definition sample_ext : Externals :=
  {| ext_state := list string;
     interp := sample_interp;
     cast_list := sample_cast_list;
     calc_srs_mean_std := sample_mean_std;
     smart_path := fun p => p;
     is_jupyter := false;
     py_iplot := fun _ _ files => files;
     py_plot := fun _ _ files => files;
     pio_write_image := sample_write_image |}.

(** Sample inputs. *)
Definition sample_world (env : gmap string string) : world (ext := sample_ext) :=
  fresh (ext := sample_ext) env [].

Definition test_env : gmap string string := {[ "PY_ENV" := "test" ]}.
Definition dev_env : gmap string string := {[ "PY_ENV" := "development" ]}.

Definition sample_spec : spec :=
  {| spec_name := "dqn_cartpole";
     spec_meta := {| prepath := "data/dqn_cartpole_t0";
                     trial := 0; session := 1; max_session := 4 |} |}.

Definition sample_figure : figure :=
  sr_figure [1%float; 2%float] [0%float; 100%float] "t" "y" "x".

Definition sample_trial_local : gmap string pyval :=
  list_to_map
    [ ("mean_returns", VSeriesList [[1%float; 2%float]; [3%float; 4%float]]);
      ("strengths", VSeriesList [[0%float; 1%float]; [1%float; 2%float]]);
      ("sample_efficiencies", VSeriesList [[1%float; 1%float]; [2%float; 2%float]]);
      ("training_efficiencies", VSeriesList [[1%float; 3%float]; [2%float; 5%float]]);
      ("stabilities", VSeriesList [[1%float; 1%float]; [1%float; 0%float]]);
      ("consistencies", VSeries [1%float; 1%float]);
      ("frames", VSeries [0%float; 100%float]);
      ("opt_steps", VSeries [0%float; 10%float]) ].

Definition sample_trial_metrics : gmap string (gmap string pyval) :=
  {[ "local" := sample_trial_local ]}.

Definition sample_session_local : gmap string pyval :=
  list_to_map
    [ ("mean_returns", VSeries [1%float; 2%float]);
      ("strengths", VSeries [0%float; 1%float]);
      ("sample_efficiencies", VSeries [1%float; 1%float]);
      ("training_efficiencies", VSeries [1%float; 3%float]);
      ("stabilities", VSeries [1%float; 1%float]);
      ("frames", VSeries [0%float; 100%float]);
      ("opt_steps", VSeries [0%float; 10%float]) ].

Definition sample_session_metrics : gmap string (gmap string pyval) :=
  {[ "local" := sample_session_local ]}.

Definition sample_session_df : gmap string (list float) :=
  list_to_map
    [ ("loss", [3%float; 2%float]); ("explore_var", [1%float; 0%float]);
      ("entropy", [2%float; 1%float]); ("total_t", [0%float; 100%float]) ].

(** Metrics without the strengths, and a data frame without the entropy
    column. *)
Definition partial_session_local : gmap string pyval :=
  list_to_map
    [ ("mean_returns", VSeries [1%float; 2%float]);
      ("frames", VSeries [0%float; 100%float]);
      ("opt_steps", VSeries [0%float; 10%float]) ].

Definition partial_trial_local : gmap string pyval :=
  list_to_map
    [ ("mean_returns", VSeriesList [[1%float; 2%float]; [3%float; 4%float]]);
      ("frames", VSeries [0%float; 100%float]);
      ("opt_steps", VSeries [0%float; 10%float]) ].

Definition partial_session_df : gmap string (list float) :=
  list_to_map
    [ ("loss", [3%float; 2%float]); ("explore_var", [1%float; 0%float]);
      ("total_t", [0%float; 100%float]) ].

(** * Properties *)

(** ** Sample runs *)

Example str_replace_each : str_replace "ab" "x" "ababcab" = "xxcx".
Proof. reflexivity. Qed.

Example str_replace_overlap : str_replace "aa" "b" "aaa" = "ba".
Proof. reflexivity. Qed.

Example str_replace_empty : str_replace "" "-" "ab" = "-a-b-".
Proof. reflexivity. Qed.

Example str_int_negative : str_int (-25) = "-25".
Proof. reflexivity. Qed.

Example lower_opacity_Set2 :
  lower_opacity "rgb(102,194,165)" band_opacity = "rgba(102,194,165,0.2)".
Proof. reflexivity. Qed.

Example lower_opacity_not_rgb :
  lower_opacity "#66c2a5" band_opacity = "#66c2a5".
Proof. reflexivity. Qed.

Example get_palette_1 :
  get_palette (ext := sample_ext) 1
  = Ok ["rgb(102,194,165)"; "rgb(252,141,98)"; "rgb(141,160,203)"].
Proof. reflexivity. Qed.

Example get_palette_9 :
  get_palette (ext := sample_ext) 9
  = Ok [ "rgb(102,194,165)"; "rgb(102,194,165)~rgb(252,141,98)";
         "rgb(252,141,98)~rgb(141,160,203)"; "rgb(141,160,203)~rgb(231,138,195)";
         "rgb(231,138,195)~rgb(166,216,84)"; "rgb(166,216,84)~rgb(255,217,47)";
         "rgb(255,217,47)~rgb(229,196,148)"; "rgb(229,196,148)~rgb(179,179,179)";
         "rgb(179,179,179)" ].
Proof. vm_compute. reflexivity. Qed.

Example create_label_names :
  create_label (ext := sample_ext) (Names ["loss"; "entropy"]) (Name "total_t")
    None None (Some "steps") None
  = {| label_y_title := "loss,entropy";
       label_x_title := "steps";
       label_title := "loss,entropy vs steps";
       y_col_list := ["loss"; "entropy"];
       x_col_list := ["total_t"];
       legend_name_list := ["loss"; "entropy"] |}.
Proof. reflexivity. Qed.

Example save_image_written :
  save_image sample_figure "graph.png" (sample_world dev_env)
  = (Ok tt,
     World (ext := sample_ext) dev_env ["graph.png"]
       [EvWriteImage sample_figure "graph.png" None] false).
Proof. reflexivity. Qed.

Example save_image_failing_thrice :
  let w := run (ext := sample_ext)
             [ CallSaveImage sample_figure ""; CallSaveImage sample_figure "";
               CallSaveImage sample_figure "" ]
             (sample_world dev_env) in
  trace w
  = [ EvWriteImage sample_figure "" (Some (ValueError "orca"));
      EvWarning warning_msg;
      EvWriteImage sample_figure "" (Some (ValueError "orca"));
      EvWriteImage sample_figure "" (Some (ValueError "orca")) ]
  /\ once_called w = true.
Proof. split; reflexivity. Qed.

Example plot_trial_in_test_run :
  exports (plot_trial (ext := sample_ext) sample_spec sample_trial_metrics
             (sample_world test_env)).2 = [].
Proof. vm_compute. reflexivity. Qed.

(** ** Palette *)

Section PaletteFacts.
Context {ext : Externals}.


End PaletteFacts.



(** ** The mean chart with its error band *)

Section BandFacts.
Context {ext : Externals}.

Lemma zip_with_lookup_both {A B C : Type} (f : A -> B -> C)
    (l : list A) (k : list B) (i : nat) (a : A) (b : B) :
  l !! i = Some a -> k !! i = Some b ->
  zip_with f l k !! i = Some (f a b).
Proof.
  intros Ha Hb. rewrite lookup_zip_with, Ha. cbn. rewrite Hb. reflexivity.
Qed.

(** C2, as the code has it.  The figure of [plot_mean_sr] has two traces.
    The main trace draws the mean; the envelope trace runs along an upper
    envelope and back along a lower one, over the time axis and its
    reverse.  Each envelope has a point wherever both the mean and the
    deviation have one: there the upper one is the float64 sum
    [mean + std] and the lower one the float64 difference [mean - std].
    The band is filled with the color of the main trace at opacity 0.2. *)
Theorem plot_mean_sr_envelope (sr_list : list series) (time_sr : series)
    (title y_title x_title : string) :
  let mean_sr := (calc_srs_mean_std sr_list).1 in
  let std_sr := (calc_srs_mean_std sr_list).2 in
  exists main_trace envelope_trace layout upper lower,
    plot_mean_sr (VSeriesList sr_list) (VSeries time_sr) title y_title x_title
    = Ok (Figure [main_trace; envelope_trace] layout)
    /\ sc_x main_trace = time_sr
    /\ sc_y main_trace = VSeries mean_sr
    /\ sc_x envelope_trace = (time_sr ++ reverse time_sr)%list
    /\ sc_y envelope_trace = VSeries (upper ++ reverse lower)%list
    /\ length upper = Nat.min (length mean_sr) (length std_sr)
    /\ length lower = Nat.min (length mean_sr) (length std_sr)
    /\ (forall (i : nat) (m s : float),
          mean_sr !! i = Some m -> std_sr !! i = Some s ->
          upper !! i = Some (PrimFloat.add m s)
          /\ lower !! i = Some (PrimFloat.sub m s))
    /\ sc_fill envelope_trace = Some "tozerox"
    /\ sc_fillcolor envelope_trace
       = Some (lower_opacity (line_color (sc_line main_trace)) band_opacity)
    /\ line_color (sc_line main_trace) = "rgb(102,194,165)"
    /\ sc_fillcolor envelope_trace = Some "rgba(102,194,165,0.2)".
Proof.
  intros mean_sr std_sr.
  unfold plot_mean_sr. cbn [as_series_list as_series mbind result_bind].
  destruct (calc_srs_mean_std sr_list) as [m s] eqn:Hcalc.
  subst mean_sr std_sr. cbn [fst snd].
  exists {| sc_x := time_sr; sc_y := VSeries m; sc_mode := Some "lines";
            sc_showlegend := false;
            sc_line := Line "rgb(102,194,165)" (Some 1);
            sc_fill := None; sc_fillcolor := None |}.
  eexists. eexists. exists (sr_add m s), (sr_sub m s).
  split; [reflexivity|]. cbn.
  split; [reflexivity|]. split; [reflexivity|]. split; [reflexivity|].
  split; [reflexivity|].
  split; [unfold sr_add; apply length_zip_with|].
  split; [unfold sr_sub; apply length_zip_with|].
  split.
  - intros i a b Ha Hb. unfold sr_add, sr_sub.
    split; apply zip_with_lookup_both; assumption.
  - repeat split; reflexivity.
Qed.

End BandFacts.

(** The mirror of C2 does not survive float64 rounding.  For the two
    one-point series 1.0 and 3.0 the mean is 2.0 and the deviation the
    square root of 2; the sum and the difference are rounded each on its
    own, and the distance from the mean up to the upper envelope is not
    the distance from the lower envelope up to the mean. *)
Lemma plot_mean_sr_not_mirrored :
  calc_srs_mean_std (Externals := sample_ext) [[1%float]; [3%float]]
  = ([2%float], [1.4142135623730951%float])
  /\ exists main_trace envelope_trace layout (mean upper lower : float),
    plot_mean_sr (ext := sample_ext)
      (VSeriesList [[1%float]; [3%float]]) (VSeries [0%float]) "t" "y" "x"
    = Ok (Figure [main_trace; envelope_trace] layout)
    /\ sc_y main_trace = VSeries [mean]
    /\ sc_y envelope_trace = VSeries [upper; lower]
    /\ upper = PrimFloat.add 2%float 1.4142135623730951%float
    /\ lower = PrimFloat.sub 2%float 1.4142135623730951%float
    /\ PrimFloat.sub upper mean = 1.4142135623730949%float
    /\ PrimFloat.sub mean lower = 1.4142135623730951%float
    /\ PrimFloat.sub upper mean <> PrimFloat.sub mean lower.
Proof.
  split; [vm_compute; reflexivity|].
  do 3 eexists.
  exists 2%float, (PrimFloat.add 2%float 1.4142135623730951%float),
    (PrimFloat.sub 2%float 1.4142135623730951%float).
  split; [vm_compute; reflexivity|].
  split; [reflexivity|]. split; [reflexivity|].
  split; [reflexivity|]. split; [reflexivity|].
  split; [vm_compute; reflexivity|]. split; [vm_compute; reflexivity|].
  vm_compute. discriminate.
Qed.

(** ** Image export *)

Section ExportFacts.
Context {ext : Externals}.

Lemma bind_ok {A B} (m : M A) (f : A -> M B) (w w1 : world) (a : A) :
  m w = (Ok a, w1) -> (m ≫= f) w = f a w1.
Proof. intros E. unfold mbind, M_bind. rewrite E. reflexivity. Qed.

Lemma bind_raise {A B} (m : M A) (f : A -> M B) (w w1 : world) (e : exn) :
  m w = (Raise e, w1) -> (m ≫= f) w = (Raise e, w1).
Proof. intros E. unfold mbind, M_bind. rewrite E. reflexivity. Qed.

Lemma os_environ_ok (key v : string) (w : world) :
  environ w !! key = Some v -> os_environ key w = (Ok v, w).
Proof. intros E. unfold os_environ, getitem. rewrite E. reflexivity. Qed.

(** What [save_image] does once the environment says this is no test
    run: one call of the export engine; a failure is swallowed, and
    logged if the flag is still down. *)
Lemma save_image_run (fig : figure) (filepath v : string) (w : world) :
  environ w !! "PY_ENV" = Some v -> v <> "test" ->
  save_image fig filepath w =
    (Ok tt,
     let out := pio_write_image fig (smart_path filepath) (disk w) in
     World (environ w) out.1
       (trace w ++ EvWriteImage fig (smart_path filepath) out.2
          :: match out.2 with
             | Some _ => if once_called w then [] else [EvWarning warning_msg]
             | None => []
             end)
       (match out.2 with Some _ => true | None => once_called w end)).
Proof.
  intros Henv Hv. unfold save_image.
  rewrite (bind_ok _ _ _ _ _ (os_environ_ok _ _ _ Henv)).
  rewrite decide_False by exact Hv.
  unfold try_except, write_image, orca_warn_once, logger_warning, emit.
  destruct (pio_write_image fig (smart_path filepath) (disk w)) as [d [e|]];
    cbn [fst snd environ disk trace once_called]; [|reflexivity].
  destruct (once_called w); cbn [fst snd environ disk trace once_called].
  - reflexivity.
  - rewrite <- app_assoc. reflexivity.
Qed.

(** In a test run [save_image] returns at once. *)
Lemma save_image_skip (fig : figure) (filepath : string) (w : world) :
  environ w !! "PY_ENV" = Some "test" ->
  save_image fig filepath w = (Ok tt, w).
Proof.
  intros Henv. unfold save_image.
  rewrite (bind_ok _ _ _ _ _ (os_environ_ok _ _ _ Henv)).
  reflexivity.
Qed.

(** Without the variable the lookup raises, before the [try]. *)
Lemma save_image_no_env (fig : figure) (filepath : string) (w : world) :
  environ w !! "PY_ENV" = None ->
  save_image fig filepath w = (Raise (KeyError "PY_ENV"), w).
Proof.
  intros Henv. unfold save_image.
  apply bind_raise. unfold os_environ, getitem. rewrite Henv. reflexivity.
Qed.

(** C3. Under [PY_ENV = 'test'], [save_image] returns normally and
    leaves the world as it was: the export engine is not called, no file
    is created, nothing is logged. *)
Theorem save_image_test_noop (fig : figure) (filepath : string) (w : world) :
  environ w !! "PY_ENV" = Some "test" ->
  save_image fig filepath w = (Ok tt, w)
  /\ disk (save_image fig filepath w).2 = disk w
  /\ exports (save_image fig filepath w).2 = exports w.
Proof.
  intros Henv. rewrite (save_image_skip fig filepath w Henv). auto.
Qed.

(** C10. [os.environ['PY_ENV']] is read by plain indexing, before the
    [try]: without the variable, [save_image] raises [KeyError] whatever
    the figure and the path, and nothing else happens; and [KeyError] on
    a missing variable is the only way [save_image] raises. *)
Theorem save_image_PY_ENV_absent (fig : figure) (filepath : string) (w : world) :
  (environ w !! "PY_ENV" = None ->
   save_image fig filepath w = (Raise (KeyError "PY_ENV"), w))
  /\ (is_ok (save_image fig filepath w).1 = true
      <-> is_Some (environ w !! "PY_ENV")).
Proof.
  split; [apply save_image_no_env|].
  destruct (environ w !! "PY_ENV") as [v|] eqn:Henv.
  - split; [eauto|intros _].
    destruct (decide (v = "test")) as [->|Hv].
    + rewrite (save_image_skip _ _ _ Henv). reflexivity.
    + rewrite (save_image_run _ _ _ _ Henv Hv). reflexivity.
  - rewrite (save_image_no_env _ _ _ Henv). cbn.
    split; [discriminate|]. intros [? ?]. discriminate.
Qed.

(** The only exception that leaves [save_image] is the [KeyError] of the
    environment lookup. *)
Lemma save_image_raise_inv (fig : figure) (filepath : string) (w w' : world)
    (e : exn) :
  save_image fig filepath w = (Raise e, w') ->
  e = KeyError "PY_ENV" /\ environ w !! "PY_ENV" = None /\ w' = w.
Proof.
  destruct (environ w !! "PY_ENV") as [v|] eqn:Henv.
  - destruct (decide (v = "test")) as [->|Hv].
    + rewrite (save_image_skip _ _ _ Henv). discriminate.
    + rewrite (save_image_run _ _ _ _ Henv Hv). discriminate.
  - rewrite (save_image_no_env _ _ _ Henv).
    intros [= <- <-]. auto.
Qed.

(** C4. When [save_image] gets as far as writing the image and the
    export engine raises, the exception is caught: the call returns
    normally, having asked for that one export. *)
Theorem save_image_export_failure_caught (fig : figure) (filepath v : string)
    (w : world) (d : ext_state) (e : exn) :
  environ w !! "PY_ENV" = Some v -> v <> "test" ->
  pio_write_image fig (smart_path filepath) (disk w) = (d, Some e) ->
  exists w', save_image fig filepath w = (Ok tt, w')
    /\ disk w' = d
    /\ exports w' = (exports w ++ [(fig, smart_path filepath)])%list
    /\ environ w' = environ w.
Proof.
  intros Henv Hv Hfail.
  rewrite (save_image_run _ _ _ _ Henv Hv), Hfail.
  eexists. split; [reflexivity|]. cbn [fst snd environ disk trace].
  repeat split. unfold exports. cbn [trace].
  rewrite omap_app. destruct (once_called w); reflexivity.
Qed.

End ExportFacts.

(** ** What the calls do to the world *)

Section ProcessFacts.
Context {ext : Externals}.

Lemma evolves_refl (w : world) : evolves w w.
Proof. unfold evolves. auto. Qed.

Lemma evolves_trans (w1 w2 w3 : world) :
  evolves w1 w2 -> evolves w2 w3 -> evolves w1 w3.
Proof.
  intros (E1 & F1 & I1) (E2 & F2 & I2). unfold evolves.
  split; [congruence|]. split; auto.
Qed.

Lemma filter_flag_nil (f : event -> bool) (t : list event) :
  Forall (fun e => f e = false) t -> filter (fun e => f e = true) t = [].
Proof.
  induction 1 as [|e t He _ IH]; [reflexivity|].
  rewrite filter_cons_False by (rewrite He; discriminate). exact IH.
Qed.

Lemma filter_flag_cons (f : event -> bool) (e : event) (t : list event) :
  length (filter (fun e => f e = true) (e :: t))
  = ((if f e then 1 else 0) + length (filter (fun e => f e = true) t))%nat.
Proof.
  destruct (f e) eqn:He.
  - rewrite filter_cons_True by exact He. reflexivity.
  - rewrite filter_cons_False by (rewrite He; discriminate). reflexivity.
Qed.

(** Only the trace and the flag matter to [flag_inv]; an event that is
    neither a warning nor a failed export changes neither count. *)
Lemma evolves_quiet (w : world) (d : ext_state) (t : list event) :
  Forall (fun e => is_warning e = false /\ is_failure e = false) t ->
  evolves w (World (environ w) d (trace w ++ t) (once_called w)).
Proof.
  intros Ht. apply Forall_and in Ht. destruct Ht as [Hw Hf].
  apply filter_flag_nil in Hw, Hf.
  unfold evolves, flag_inv, warnings, failures.
  cbn [environ trace once_called].
  rewrite !filter_app, Hw, Hf, !app_nil_r. auto.
Qed.

Lemma frame_ret {A} (a : A) : frame (mret a : M A).
Proof. intros w. apply evolves_refl. Qed.

Lemma frame_lift {A} (r : result A) : frame (lift r).
Proof. intros w. apply evolves_refl. Qed.

Lemma frame_bind {A B} (m : M A) (f : A -> M B) :
  frame m -> (forall a, frame (f a)) -> frame (m ≫= f).
Proof.
  intros Hm Hf w. specialize (Hm w). unfold mbind, M_bind.
  destruct (m w) as [[a|e] w1]; cbn [snd] in *.
  - eapply evolves_trans; [exact Hm|apply Hf].
  - exact Hm.
Qed.

Lemma frame_for_each {A} (xs : list A) (body : A -> M unit) :
  (forall x, frame (body x)) -> frame (for_each xs body).
Proof.
  intros Hbody. induction xs as [|x xs IH]; cbn [for_each].
  - apply frame_ret.
  - apply frame_bind; [apply Hbody|intros _; exact IH].
Qed.

Lemma frame_emit_quiet (e : event) :
  is_warning e = false -> is_failure e = false -> frame (emit e).
Proof.
  intros Hw Hf w. unfold emit. cbn [snd].
  apply evolves_quiet. repeat constructor; assumption.
Qed.

Lemma frame_on_disk (f : ext_state -> ext_state) : frame (on_disk f).
Proof.
  intros w. unfold on_disk. cbn [snd].
  rewrite <- (app_nil_r (trace w)). apply evolves_quiet. constructor.
Qed.

Lemma frame_os_environ (key : string) : frame (os_environ key).
Proof. intros w. apply evolves_refl. Qed.

Lemma frame_plot (fig : figure) (auto_open : option bool) :
  frame (plot fig auto_open).
Proof.
  unfold plot. destruct is_jupyter;
    (apply frame_bind; [apply frame_emit_quiet; reflexivity
                       |intros _; apply frame_on_disk]).
Qed.

Lemma frame_plot_sr (sr time_sr : pyval) (title y_title x_title : string) :
  frame (plot_sr sr time_sr title y_title x_title).
Proof.
  unfold plot_sr.
  do 3 (apply frame_bind; [apply frame_lift|intros ?]).
  apply frame_bind; [apply frame_plot|intros _; apply frame_ret].
Qed.

Lemma flag_inv_failure (w : world) (d : ext_state) (fig : figure)
    (filepath : string) (e : exn) :
  flag_inv w ->
  flag_inv
    (World (environ w) d
       (trace w ++ EvWriteImage fig filepath (Some e)
          :: (if once_called w then [] else [EvWarning warning_msg]))
       true).
Proof.
  unfold flag_inv, warnings, failures. cbn [trace once_called].
  intros [Hflag Hwarn]. rewrite !filter_app, !length_app.
  destruct (once_called w); symmetry in Hflag;
    [apply bool_decide_eq_true in Hflag|apply bool_decide_eq_false in Hflag];
    rewrite ?filter_flag_cons, ?filter_nil; cbn [is_failure is_warning length];
    (split; [symmetry; apply bool_decide_eq_true; lia|lia]).
Qed.

Lemma frame_save_image (fig : figure) (filepath : string) :
  frame (save_image fig filepath).
Proof.
  intros w. destruct (environ w !! "PY_ENV") as [v|] eqn:Henv.
  - destruct (decide (v = "test")) as [->|Hv].
    + rewrite (save_image_skip _ _ _ Henv). apply evolves_refl.
    + rewrite (save_image_run _ _ _ _ Henv Hv). cbn [snd].
      destruct (pio_write_image fig (smart_path filepath) (disk w))
        as [d [e|]]; cbn [fst snd].
      * unfold evolves. cbn [environ once_called].
        split; [reflexivity|]. split; [reflexivity|]. apply flag_inv_failure.
      * apply evolves_quiet. repeat constructor.
  - rewrite (save_image_no_env _ _ _ Henv). apply evolves_refl.
Qed.

Lemma frame_plot_session (session_spec : spec)
    (session_metrics : gmap string (gmap string pyval))
    (session_df : gmap string (list float)) (df_mode : string) :
  frame (plot_session session_spec session_metrics session_df df_mode).
Proof.
  unfold plot_session.
  apply frame_bind; [apply frame_lift|intros local_metrics].
  apply frame_bind.
  - apply frame_for_each. intros [name time].
    do 2 (apply frame_bind; [apply frame_lift|intros ?]).
    apply frame_bind; [apply frame_plot_sr|intros fig; apply frame_save_image].
  - intros _. destruct (decide (df_mode = "eval")); [apply frame_ret|].
    apply frame_for_each. intros [name time].
    do 2 (apply frame_bind; [apply frame_lift|intros ?]).
    apply frame_bind; [apply frame_plot_sr|intros fig; apply frame_save_image].
Qed.

Lemma frame_plot_trial (trial_spec : spec)
    (trial_metrics : gmap string (gmap string pyval)) :
  frame (plot_trial trial_spec trial_metrics).
Proof.
  unfold plot_trial.
  apply frame_bind; [apply frame_lift|intros local_metrics].
  apply frame_for_each. intros [name time].
  apply frame_bind; [|intros fig; apply frame_save_image].
  destruct (decide (name = "consistencies")).
  - do 2 (apply frame_bind; [apply frame_lift|intros ?]).
    apply frame_plot_sr.
  - do 2 (apply frame_bind; [apply frame_lift|intros ?]).
    apply frame_lift.
Qed.

Lemma frame_exec (c : call) : frame (exec c).
Proof.
  destruct c; cbn [exec].
  - apply frame_ret.
  - apply frame_bind; [apply frame_lift|intros ?; apply frame_ret].
  - apply frame_ret.
  - apply frame_bind; [apply frame_plot|intros ?; apply frame_ret].
  - apply frame_bind; [apply frame_plot_sr|intros ?; apply frame_ret].
  - apply frame_bind; [apply frame_lift|intros ?; apply frame_ret].
  - apply frame_bind; [apply frame_save_image|intros ?; apply frame_ret].
  - apply frame_bind; [apply frame_plot_session|intros ?; apply frame_ret].
  - apply frame_bind; [apply frame_plot_trial|intros ?; apply frame_ret].
Qed.

Lemma evolves_run (cs : list call) (w : world) : evolves w (run cs w).
Proof.
  revert w. induction cs as [|c cs IH]; intros w; cbn [run].
  - apply evolves_refl.
  - eapply evolves_trans; [apply frame_exec|apply IH].
Qed.

Lemma flag_inv_fresh (env : gmap string string) (d : ext_state) :
  flag_inv (fresh env d).
Proof. split; reflexivity. Qed.

Lemma flag_inv_run (cs : list call) (env : gmap string string) (d : ext_state) :
  flag_inv (run cs (fresh env d)).
Proof. apply (evolves_run cs (fresh env d)), flag_inv_fresh. Qed.

(** C5. In a process that starts with the module freshly imported and
    makes any calls of the module, the warning has been logged at most
    once: once if some export has failed, never otherwise.  A further
    [save_image] whose export fails logs the warning right after the
    failed export if it is the first failure of the process, and stays
    silent otherwise; either way the process then has exactly one
    warning. *)
Theorem export_warning_at_most_once (cs : list call)
    (env : gmap string string) (d : ext_state) :
  let w := run cs (fresh env d) in
  (warnings w <= 1)%nat
  /\ warnings w = Nat.min 1 (failures w)
  /\ forall (fig : figure) (filepath v : string) (d' : ext_state) (e : exn),
       environ w !! "PY_ENV" = Some v -> v <> "test" ->
       pio_write_image fig (smart_path filepath) (disk w) = (d', Some e) ->
       let w' := (save_image fig filepath w).2 in
       trace w'
       = (trace w ++ EvWriteImage fig (smart_path filepath) (Some e)
            :: (if decide (failures w = 0%nat)
                then [EvWarning warning_msg] else []))%list
       /\ warnings w' = 1%nat.
Proof.
  intros w. pose proof (flag_inv_run cs env d) as Hinv. fold w in Hinv.
  destruct Hinv as [Hflag Hwarn].
  split; [lia|]. split; [exact Hwarn|].
  intros fig filepath v d' e Henv Hv Hfail w'.
  assert (Hinv' : flag_inv w').
  { apply (frame_save_image fig filepath w). split; assumption. }
  subst w'. rewrite (save_image_run _ _ _ _ Henv Hv), Hfail in *.
  cbn [fst snd trace] in *. split.
  - rewrite Hflag. destruct (decide (failures w = 0%nat)) as [H0|H0].
    + rewrite bool_decide_eq_false_2 by lia. reflexivity.
    + rewrite bool_decide_eq_true_2 by lia. reflexivity.
  - destruct Hinv' as [_ Hwarn']. rewrite Hwarn'.
    unfold failures. cbn [trace].
    rewrite filter_app, length_app, filter_flag_cons. cbn [is_failure]. lia.
Qed.

Lemma flag_blind_ret {A} (a : A) : flag_blind (mret a : M A).
Proof.
  intros w1 w2 He Hd. cbn. split; [reflexivity|]. split; [exact He|].
  split; [exact Hd|]. exists [], []. rewrite !app_nil_r. auto.
Qed.

Lemma flag_blind_lift {A} (r : result A) : flag_blind (lift r).
Proof.
  intros w1 w2 He Hd. cbn. split; [reflexivity|]. split; [exact He|].
  split; [exact Hd|]. exists [], []. rewrite !app_nil_r. auto.
Qed.

Lemma flag_blind_bind {A B} (m : M A) (f : A -> M B) :
  flag_blind m -> (forall a, flag_blind (f a)) -> flag_blind (m ≫= f).
Proof.
  intros Hm Hf w1 w2 He Hd.
  destruct (Hm w1 w2 He Hd) as (Hr & He1 & Hd1 & t1 & t2 & H1 & H2 & Ht).
  unfold mbind, M_bind.
  destruct (m w1) as [r1 v1], (m w2) as [r2 v2]. cbn [fst snd] in *.
  subst r2. destruct r1 as [a|e]; cbn [fst snd].
  - destruct (Hf a v1 v2 He1 Hd1) as (Hr' & He2 & Hd2 & u1 & u2 & U1 & U2 & Hu).
    split; [exact Hr'|]. split; [exact He2|]. split; [exact Hd2|].
    exists (t1 ++ u1)%list, (t2 ++ u2)%list.
    rewrite U1, U2, H1, H2, !app_assoc. split; [reflexivity|].
    split; [reflexivity|]. unfold calls_made in *.
    rewrite !filter_app, Ht, Hu. reflexivity.
  - split; [reflexivity|]. split; [exact He1|]. split; [exact Hd1|].
    exists t1, t2. auto.
Qed.

Lemma flag_blind_for_each {A} (xs : list A) (body : A -> M unit) :
  (forall x, flag_blind (body x)) -> flag_blind (for_each xs body).
Proof.
  intros Hbody. induction xs as [|x xs IH]; cbn [for_each].
  - apply flag_blind_ret.
  - apply flag_blind_bind; [apply Hbody|intros _; exact IH].
Qed.

Lemma flag_blind_emit (e : event) : flag_blind (emit e).
Proof.
  intros w1 w2 He Hd. unfold emit. cbn [fst snd environ disk trace].
  split; [reflexivity|]. split; [exact He|]. split; [exact Hd|].
  exists [e], [e]. auto.
Qed.

Lemma flag_blind_on_disk (f : ext_state -> ext_state) : flag_blind (on_disk f).
Proof.
  intros w1 w2 He Hd. unfold on_disk. cbn [fst snd environ disk trace].
  split; [reflexivity|]. split; [exact He|]. split; [rewrite Hd; reflexivity|].
  exists [], []. rewrite !app_nil_r. auto.
Qed.

Lemma flag_blind_plot (fig : figure) (auto_open : option bool) :
  flag_blind (plot fig auto_open).
Proof.
  unfold plot. destruct is_jupyter;
    (apply flag_blind_bind; [apply flag_blind_emit
                            |intros _; apply flag_blind_on_disk]).
Qed.

Lemma flag_blind_plot_sr (sr time_sr : pyval) (title y_title x_title : string) :
  flag_blind (plot_sr sr time_sr title y_title x_title).
Proof.
  unfold plot_sr.
  do 3 (apply flag_blind_bind; [apply flag_blind_lift|intros ?]).
  apply flag_blind_bind; [apply flag_blind_plot|intros _; apply flag_blind_ret].
Qed.

(** The flag decides one thing in [save_image]: whether the warning is
    logged after a failed export. *)
Lemma flag_blind_save_image (fig : figure) (filepath : string) :
  flag_blind (save_image fig filepath).
Proof.
  intros w1 w2 He Hd.
  destruct (environ w1 !! "PY_ENV") as [v|] eqn:Henv1;
    pose proof Henv1 as Henv2; rewrite He in Henv2.
  - destruct (decide (v = "test")) as [->|Hv].
    + rewrite (save_image_skip _ _ _ Henv1), (save_image_skip _ _ _ Henv2).
      cbn [fst snd]. split; [reflexivity|]. split; [exact He|].
      split; [exact Hd|]. exists [], []. rewrite !app_nil_r. auto.
    + rewrite (save_image_run _ _ _ _ Henv1 Hv), (save_image_run _ _ _ _ Henv2 Hv).
      cbn [fst snd environ disk trace]. rewrite <- Hd.
      split; [reflexivity|]. split; [exact He|]. split; [reflexivity|].
      eexists. eexists. split; [reflexivity|]. split; [reflexivity|].
      unfold calls_made.
      destruct (pio_write_image fig (smart_path filepath) (disk w1))
        as [d [e|]]; cbn [fst snd]; [|reflexivity].
      destruct (once_called w1), (once_called w2); reflexivity.
  - rewrite (save_image_no_env _ _ _ Henv1), (save_image_no_env _ _ _ Henv2).
    cbn [fst snd]. split; [reflexivity|]. split; [exact He|].
    split; [exact Hd|]. exists [], []. rewrite !app_nil_r. auto.
Qed.

Lemma flag_blind_plot_session (session_spec : spec)
    (session_metrics : gmap string (gmap string pyval))
    (session_df : gmap string (list float)) (df_mode : string) :
  flag_blind (plot_session session_spec session_metrics session_df df_mode).
Proof.
  unfold plot_session.
  apply flag_blind_bind; [apply flag_blind_lift|intros local_metrics].
  apply flag_blind_bind.
  - apply flag_blind_for_each. intros [name time].
    do 2 (apply flag_blind_bind; [apply flag_blind_lift|intros ?]).
    apply flag_blind_bind;
      [apply flag_blind_plot_sr|intros fig; apply flag_blind_save_image].
  - intros _. destruct (decide (df_mode = "eval")); [apply flag_blind_ret|].
    apply flag_blind_for_each. intros [name time].
    do 2 (apply flag_blind_bind; [apply flag_blind_lift|intros ?]).
    apply flag_blind_bind;
      [apply flag_blind_plot_sr|intros fig; apply flag_blind_save_image].
Qed.

Lemma flag_blind_plot_trial (trial_spec : spec)
    (trial_metrics : gmap string (gmap string pyval)) :
  flag_blind (plot_trial trial_spec trial_metrics).
Proof.
  unfold plot_trial.
  apply flag_blind_bind; [apply flag_blind_lift|intros local_metrics].
  apply flag_blind_for_each. intros [name time].
  apply flag_blind_bind; [|intros fig; apply flag_blind_save_image].
  destruct (decide (name = "consistencies")).
  - do 2 (apply flag_blind_bind; [apply flag_blind_lift|intros ?]).
    apply flag_blind_plot_sr.
  - do 2 (apply flag_blind_bind; [apply flag_blind_lift|intros ?]).
    apply flag_blind_lift.
Qed.

Lemma flag_blind_exec (c : call) : flag_blind (exec c).
Proof.
  destruct c; cbn [exec].
  - apply flag_blind_ret.
  - apply flag_blind_bind; [apply flag_blind_lift|intros ?; apply flag_blind_ret].
  - apply flag_blind_ret.
  - apply flag_blind_bind; [apply flag_blind_plot|intros ?; apply flag_blind_ret].
  - apply flag_blind_bind; [apply flag_blind_plot_sr|intros ?; apply flag_blind_ret].
  - apply flag_blind_bind; [apply flag_blind_lift|intros ?; apply flag_blind_ret].
  - apply flag_blind_bind;
      [apply flag_blind_save_image|intros ?; apply flag_blind_ret].
  - apply flag_blind_bind;
      [apply flag_blind_plot_session|intros ?; apply flag_blind_ret].
  - apply flag_blind_bind;
      [apply flag_blind_plot_trial|intros ?; apply flag_blind_ret].
Qed.

(** C8 (amended). The helpers [create_label], [get_palette] and
    [lower_opacity] return the same result for the same arguments
    whatever the world they are called in, and leave that world as it
    was.  No call of the module changes the environment or lowers the
    flag of the once-only warning, the only state the module owns.  What
    a call returns, shows and exports, and the disk it leaves, depend on
    the world through the environment and the disk alone: the flag and
    the calls made before decide nothing but whether a warning is
    logged. *)
Theorem helpers_deterministic (w1 w2 : world) :
  (forall y_col x_col title y_title x_title legend_name,
     let c := CallCreateLabel y_col x_col title y_title x_title legend_name in
     (exec c w1).1 = (exec c w2).1
     /\ (exec c w1).2 = w1 /\ (exec c w2).2 = w2)
  /\ (forall aeb_count,
        let c := CallGetPalette aeb_count in
        (exec c w1).1 = (exec c w2).1
        /\ (exec c w1).2 = w1 /\ (exec c w2).2 = w2)
  /\ (forall rgb opacity,
        let c := CallLowerOpacity rgb opacity in
        (exec c w1).1 = (exec c w2).1
        /\ (exec c w1).2 = w1 /\ (exec c w2).2 = w2)
  /\ (forall c : call,
        environ (exec c w1).2 = environ w1
        /\ (once_called w1 = true -> once_called (exec c w1).2 = true))
  /\ (forall c : call,
        environ w1 = environ w2 -> disk w1 = disk w2 ->
        (exec c w1).1 = (exec c w2).1
        /\ disk (exec c w1).2 = disk (exec c w2).2
        /\ exists t1 t2 : list event,
             trace (exec c w1).2 = (trace w1 ++ t1)%list
             /\ trace (exec c w2).2 = (trace w2 ++ t2)%list
             /\ calls_made t1 = calls_made t2).
Proof.
  split; [|split; [|split; [|split]]].
  - intros. cbn. auto.
  - intros n c. subst c. cbn [exec]. unfold mbind, M_bind, lift.
    destruct (get_palette n); cbn; auto.
  - intros. cbn. auto.
  - intros c. destruct (frame_exec c w1) as (Henv & Hflag & _). auto.
  - intros c He Hd.
    destruct (flag_blind_exec c w1 w2 He Hd) as (Hr & _ & Hd' & Ht). auto.
Qed.

End ProcessFacts.

(** C8, as first stated, fails: the flag is not the only shared state an
    operation reads or writes.  With the flag down in each of three
    worlds, [save_image], given the same figure and path, returns at
    once, raises, or exports, as the environment of the process has it;
    and the export writes a file. *)
Lemma save_image_reads_environ :
  once_called (sample_world test_env) = false
  /\ once_called (sample_world ∅) = false
  /\ once_called (sample_world dev_env) = false
  /\ save_image (ext := sample_ext) sample_figure "graph.png"
       (sample_world test_env)
     = (Ok tt, sample_world test_env)
  /\ (save_image (ext := sample_ext) sample_figure "graph.png"
        (sample_world ∅)).1
     = Raise (KeyError "PY_ENV")
  /\ (save_image (ext := sample_ext) sample_figure "graph.png"
        (sample_world dev_env)).1
     = Ok tt
  /\ disk (sample_world dev_env) = []
  /\ disk (save_image (ext := sample_ext) sample_figure "graph.png"
             (sample_world dev_env)).2
     = ["graph.png"]
  /\ (save_image (ext := sample_ext) sample_figure "graph.png"
        (sample_world ∅)).1
     <> (save_image (ext := sample_ext) sample_figure "graph.png"
           (sample_world dev_env)).1.
Proof.
  split; [reflexivity|]. split; [reflexivity|]. split; [reflexivity|].
  split; [reflexivity|]. split; [reflexivity|]. split; [reflexivity|].
  split; [reflexivity|]. split; [reflexivity|]. discriminate.
Qed.

(** A failing export in a fresh process and in one that has warned
    before: the flags differ, and so do the warnings logged, and nothing
    else. *)
Lemma helpers_deterministic_witness :
  let w1 := sample_world dev_env in
  let w2 := World (ext := sample_ext) dev_env []
              [EvWriteImage sample_figure "" (Some (ValueError "orca"));
               EvWarning warning_msg] true in
  let c := CallSaveImage sample_figure "" in
  environ w1 = environ w2 /\ disk w1 = disk w2
  /\ once_called w1 <> once_called w2
  /\ (exec c w1).1 = (exec c w2).1
  /\ disk (exec c w1).2 = disk (exec c w2).2
  /\ (exists t1 t2 : list event,
        trace (exec c w1).2 = (trace w1 ++ t1)%list
        /\ trace (exec c w2).2 = (trace w2 ++ t2)%list
        /\ calls_made t1 = calls_made t2)
  /\ warnings (exec c w1).2 = 1%nat /\ warnings (exec c w2).2 = 1%nat.
Proof.
  intros w1 w2 c.
  split; [reflexivity|]. split; [reflexivity|]. split; [discriminate|].
  destruct (helpers_deterministic (ext := sample_ext) w1 w2)
    as (_ & _ & _ & _ & H).
  destruct (H c eq_refl eq_refl) as (Hr & Hd & Ht).
  split; [exact Hr|]. split; [exact Hd|]. split; [exact Ht|].
  split; reflexivity.
Defined.

(** ** create_label *)

Section LabelFacts.
Context {ext : Externals}.

(** C9 (amended). With no override, the titles are the comma-joined
    column lists, the title is [y_title vs x_title] and the legend names
    are those of [y_col].  An override that is not empty is used as it
    is, the legend names being the override cast to a list.  An override
    that is empty, [''] or [[]], counts as omitted: the default takes its
    place, and the label is the one that omitting the override gives.  A
    title that is omitted or empty is built from the y and x titles in
    use. *)
Theorem create_label_resolution (y_col x_col : col) :
  create_label y_col x_col None None None None
  = {| label_y_title := String.concat "," (cast_list y_col);
       label_x_title := String.concat "," (cast_list x_col);
       label_title := String.concat "," (cast_list y_col) ++ " vs "
                      ++ String.concat "," (cast_list x_col);
       y_col_list := cast_list y_col;
       x_col_list := cast_list x_col;
       legend_name_list := cast_list y_col |}
  /\ forall (title y_title x_title : option string) (legend_name : option col),
       let l := create_label y_col x_col title y_title x_title legend_name in
       (forall s, y_title = Some s -> s <> "" -> label_y_title l = s)
       /\ (forall s, x_title = Some s -> s <> "" -> label_x_title l = s)
       /\ (forall s, title = Some s -> s <> "" -> label_title l = s)
       /\ (forall c, legend_name = Some c -> c <> Name "" -> c <> Names [] ->
             legend_name_list l = cast_list c)
       /\ (y_title = None \/ y_title = Some "" ->
             label_y_title l = String.concat "," (cast_list y_col)
             /\ l = create_label y_col x_col title None x_title legend_name)
       /\ (x_title = None \/ x_title = Some "" ->
             label_x_title l = String.concat "," (cast_list x_col)
             /\ l = create_label y_col x_col title y_title None legend_name)
       /\ (title = None \/ title = Some "" ->
             label_title l = label_y_title l ++ " vs " ++ label_x_title l
             /\ l = create_label y_col x_col None y_title x_title legend_name)
       /\ (legend_name = None \/ legend_name = Some (Name "")
            \/ legend_name = Some (Names []) ->
             legend_name_list l = cast_list y_col
             /\ l = create_label y_col x_col title y_title x_title None)
       /\ y_col_list l = cast_list y_col
       /\ x_col_list l = cast_list x_col.
Proof.
  split; [reflexivity|].
  intros title y_title x_title legend_name l. subst l.
  unfold create_label. cbn [label_y_title label_x_title label_title
    y_col_list x_col_list legend_name_list].
  split; [|split; [|split; [|split; [|split; [|split; [|split; [|split; [|split]]]]]]]].
  - intros s -> Hs. destruct s; [congruence|reflexivity].
  - intros s -> Hs. destruct s; [congruence|reflexivity].
  - intros s -> Hs. destruct s; [congruence|reflexivity].
  - intros c -> H1 H2. destruct c as [[|? ?]|[|? ?]]; congruence || reflexivity.
  - intros [->| ->]; split; reflexivity.
  - intros [->| ->]; split; reflexivity.
  - intros [->| ->]; split; reflexivity.
  - intros [->|[->| ->]]; split; reflexivity.
  - reflexivity.
  - reflexivity.
Qed.

End LabelFacts.

(** C9, as first stated, fails: an empty title given as override is not
    used; the default title takes its place. *)
Lemma create_label_empty_override :
  label_title (create_label (ext := sample_ext) (Name "loss") (Name "total_t")
                 (Some "") None None None)
  = "loss vs total_t"
  /\ label_title (create_label (ext := sample_ext) (Name "loss") (Name "total_t")
                    (Some "") None None None)
     <> "".
Proof. split; [reflexivity|discriminate]. Qed.

Lemma create_label_resolution_witness :
  let l := create_label (ext := sample_ext) (Name "loss") (Name "total_t")
             (Some "session") (Some "L") None (Some (Names ["a"; "b"])) in
  label_y_title l = "L" /\ label_title l = "session"
  /\ legend_name_list l = ["a"; "b"] /\ label_x_title l = "total_t".
Proof.
  destruct (create_label_resolution (ext := sample_ext) (Name "loss") (Name "total_t"))
    as [_ H].
  destruct (H (Some "session") (Some "L") None (Some (Names ["a"; "b"])))
    as (Hy & _ & Ht & Hl & _ & Hx & _).
  cbv zeta. split; [apply Hy; [reflexivity|discriminate]|].
  split; [apply Ht; [reflexivity|discriminate]|].
  split; [apply (Hl _ eq_refl); discriminate|].
  apply (Hx (or_introl eq_refl)).
Defined.

(** ** The analysis plots *)

Section AnalysisFacts.
Context {ext : Externals}.

Lemma lift_getitem {A} (d : gmap string A) (k : string) (a : A) (w : world) :
  d !! k = Some a -> lift (getitem d k) w = (Ok a, w).
Proof. intros E. unfold lift, getitem. rewrite E. reflexivity. Qed.

Lemma exports_quiet (w : world) (d : ext_state) (e : event) :
  (forall fig filepath failure, e <> EvWriteImage fig filepath failure) ->
  exports (World (environ w) d (trace w ++ [e]) (once_called w)) = exports w.
Proof.
  intros He. unfold exports. cbn [trace]. rewrite omap_app.
  destruct e; cbn; try apply app_nil_r.
  exfalso. eapply He. reflexivity.
Qed.








End AnalysisFacts.




Section TrialFacts.
Context {ext : Externals}.
Variable trial_spec : spec.
Variable trial_metrics : gmap string (gmap string pyval).
Variable local_metrics : gmap string pyval.
Variables mean_returns strengths sample_efficiencies
          training_efficiencies stabilities : list (list float).
Variables consistencies frames opt_steps : list float.

Hypothesis Hlocal : trial_metrics !! "local" = Some local_metrics.
Hypothesis Hmean_returns :
  local_metrics !! "mean_returns" = Some (VSeriesList mean_returns).
Hypothesis Hstrengths :
  local_metrics !! "strengths" = Some (VSeriesList strengths).
Hypothesis Hsample_efficiencies :
  local_metrics !! "sample_efficiencies" = Some (VSeriesList sample_efficiencies).
Hypothesis Htraining_efficiencies :
  local_metrics !! "training_efficiencies"
  = Some (VSeriesList training_efficiencies).
Hypothesis Hstabilities :
  local_metrics !! "stabilities" = Some (VSeriesList stabilities).
Hypothesis Hconsistencies :
  local_metrics !! "consistencies" = Some (VSeries consistencies).
Hypothesis Hframes : local_metrics !! "frames" = Some (VSeries frames).
Hypothesis Hopt_steps : local_metrics !! "opt_steps" = Some (VSeries opt_steps).


End TrialFacts.

(** ** The theorems at sample inputs *)

Lemma save_image_test_noop_witness :
  environ (sample_world test_env) !! "PY_ENV" = Some "test"
  /\ save_image sample_figure "graph.png" (sample_world test_env)
     = (Ok tt, sample_world test_env)
  /\ disk (save_image sample_figure "graph.png" (sample_world test_env)).2
     = disk (sample_world test_env)
  /\ exports (save_image sample_figure "graph.png" (sample_world test_env)).2
     = exports (sample_world test_env).
Proof.
  split; [reflexivity|].
  apply (save_image_test_noop sample_figure "graph.png" (sample_world test_env)).
  reflexivity.
Defined.

Lemma save_image_export_failure_caught_witness :
  environ (sample_world dev_env) !! "PY_ENV" = Some "development"
  /\ "development" <> "test"
  /\ pio_write_image (Externals := sample_ext) sample_figure
       (smart_path (Externals := sample_ext) "") (disk (sample_world dev_env))
     = ([], Some (ValueError "orca"))
  /\ exists w', save_image sample_figure "" (sample_world dev_env) = (Ok tt, w')
       /\ disk w' = []
       /\ exports w' = (exports (sample_world dev_env)
                        ++ [(sample_figure, smart_path (Externals := sample_ext) "")])%list
       /\ environ w' = environ (sample_world dev_env).
Proof.
  split; [reflexivity|]. split; [discriminate|]. split; [reflexivity|].
  apply (save_image_export_failure_caught sample_figure "" "development"
           (sample_world dev_env) [] (ValueError "orca"));
    [reflexivity|discriminate|reflexivity].
Defined.

Lemma save_image_PY_ENV_absent_witness :
  environ (sample_world ∅) !! "PY_ENV" = None
  /\ save_image sample_figure "graph.png" (sample_world ∅)
     = (Raise (KeyError "PY_ENV"), sample_world ∅).
Proof.
  split; [reflexivity|].
  apply (proj1 (save_image_PY_ENV_absent sample_figure "graph.png" (sample_world ∅))).
  reflexivity.
Defined.

Lemma export_warning_at_most_once_witness :
  let w := run [CallSaveImage sample_figure ""; CallSaveImage sample_figure ""]
             (sample_world dev_env) in
  environ w !! "PY_ENV" = Some "development"
  /\ "development" <> "test"
  /\ pio_write_image (Externals := sample_ext) sample_figure
       (smart_path (Externals := sample_ext) "") (disk w)
     = ([], Some (ValueError "orca"))
  /\ (warnings w <= 1)%nat
  /\ trace (save_image sample_figure "" w).2
     = (trace w ++ EvWriteImage sample_figure (smart_path (Externals := sample_ext) "")
                     (Some (ValueError "orca"))
          :: (if decide (failures w = 0%nat)
              then [EvWarning warning_msg] else []))%list
  /\ warnings (save_image sample_figure "" w).2 = 1%nat.
Proof.
  intros w.
  destruct (export_warning_at_most_once (ext := sample_ext)
              [CallSaveImage sample_figure ""; CallSaveImage sample_figure ""]
              dev_env []) as (Hle & _ & Hnext).
  split; [reflexivity|]. split; [discriminate|]. split; [reflexivity|].
  split; [exact Hle|].
  apply (Hnext sample_figure "" "development" [] (ValueError "orca"));
    [reflexivity|discriminate|reflexivity].
Defined.


(** * More of the module *)

(** ** Palettes for any count *)

Section PaletteMore.
Context {ext : Externals}.

(** Up to eight series the palette is the start of the Set2 scale. *)
Lemma get_palette_take (n : Z) :
  n <= 8 -> get_palette n = Ok (take (Z.to_nat (Z.max 3 n)) cl.Set2_8).
Proof.
  intros Hn. unfold get_palette. rewrite decide_True by exact Hn.
  assert (Hm : Z.max 3 n = 3 \/ Z.max 3 n = 4 \/ Z.max 3 n = 5
               \/ Z.max 3 n = 6 \/ Z.max 3 n = 7 \/ Z.max 3 n = 8) by lia.
  destruct Hm as [-> | [-> | [-> | [-> | [-> | ->]]]]]; reflexivity.
Qed.


(** X2. Up to eight series, a larger count only adds colors: the palette for
    [m] series is the start of the palette for [n >= m] series, so a series
    keeps its color when more are plotted. *)
Theorem get_palette_prefix (m n : Z) :
  m <= n -> n <= 8 ->
  exists p q, get_palette m = Ok p /\ get_palette n = Ok q /\ p `prefix_of` q.
Proof.
  intros Hmn Hn.
  exists (take (Z.to_nat (Z.max 3 m)) cl.Set2_8),
         (take (Z.to_nat (Z.max 3 n)) cl.Set2_8).
  split; [apply get_palette_take; lia|]. split; [apply get_palette_take, Hn|].
  replace (Z.to_nat (Z.max 3 m))
    with (Nat.min (Z.to_nat (Z.max 3 m)) (Z.to_nat (Z.max 3 n))) by lia.
  rewrite <- take_take. apply prefix_take.
Qed.

End PaletteMore.


Lemma get_palette_prefix_witness :
  2 <= 5 /\ 5 <= 8
  /\ exists p q, get_palette (ext := sample_ext) 2 = Ok p
       /\ get_palette (ext := sample_ext) 5 = Ok q /\ p `prefix_of` q.
Proof.
  split; [lia|]. split; [lia|].
  apply (get_palette_prefix (ext := sample_ext) 2 5); lia.
Defined.

(** ** lower_opacity on the text of a color *)

(** Text free of the first character of [old] passes through the
    replacement untouched. *)
Lemma str_replace_go_free (c : Ascii.ascii) (old new body s : string) :
  str_has c body = false ->
  str_replace_go (String c old) new O (body ++ s)
  = body ++ str_replace_go (String c old) new O s.
Proof.
  induction body as [|a body IH]; intros Hfree; [reflexivity|].
  cbn [str_has] in Hfree.
  destruct (Ascii.eqb a c) eqn:Hac; [discriminate|].
  apply Ascii.eqb_neq in Hac.
  change (String a body ++ s) with (String a (body ++ s)).
  cbn [str_replace_go String.prefix].
  destruct (Ascii.ascii_dec c a) as [->|_]; [congruence|].
  rewrite IH by exact Hfree. reflexivity.
Qed.

Lemma str_app_nil (s : string) : s ++ "" = s.
Proof.
  induction s as [|a s IH]; [reflexivity|].
  change (String a s ++ "") with (String a (s ++ "")). rewrite IH. reflexivity.
Qed.

Lemma str_prefix_app (r s : string) : String.prefix r (r ++ s) = true.
Proof.
  induction r as [|a r IH]; [destruct s; reflexivity|].
  change (String a r ++ s) with (String a (r ++ s)). cbn [String.prefix].
  destruct (Ascii.ascii_dec a a) as [_|Hne]; [exact IH|congruence].
Qed.

(** The characters of an occurrence are dropped, and the scan goes on
    after them. *)
Lemma str_replace_go_skip (old new r s : string) :
  str_replace_go old new (String.length r) (r ++ s) = str_replace_go old new O s.
Proof.
  induction r as [|a r IH]; [reflexivity|].
  change (String a r ++ s) with (String a (r ++ s)).
  cbn [str_replace_go String.length]. exact IH.
Qed.

(** An occurrence at the head is replaced. *)
Lemma str_replace_go_match (c : Ascii.ascii) (old new s : string) :
  str_replace_go (String c old) new O (String c old ++ s)
  = new ++ str_replace_go (String c old) new O s.
Proof.
  change (String c old ++ s) with (String c (old ++ s)).
  cbn [str_replace_go].
  change (String c (old ++ s)) with (String c old ++ s).
  rewrite str_prefix_app.
  change (Nat.pred (String.length (String c old))) with (String.length old).
  rewrite str_replace_go_skip. reflexivity.
Qed.

(** The two replacements of [lower_opacity] on a text that ends its body
    with the closing parenthesis. *)
Lemma lower_opacity_body (head body : string) (opacity : pyfloat) :
  str_has ")"%char body = false -> str_has "r"%char body = false ->
  str_has ")"%char head = false ->
  str_replace_go "rgb(" "rgba(" O (body ++ ")") = body ++ ")"
  /\ str_replace_go ")" ("," ++ str_float opacity ++ ")") O
       (head ++ body ++ ")")
     = head ++ body ++ "," ++ str_float opacity ++ ")".
Proof.
  intros Hparen Hr Hhead. split.
  - rewrite (str_replace_go_free "r"%char "gb(" "rgba(" body ")" Hr). reflexivity.
  - rewrite (str_replace_go_free ")"%char "" _ head _ Hhead).
    rewrite (str_replace_go_free ")"%char "" _ body _ Hparen).
    change ")" with (")" ++ "") at 2.
    rewrite (str_replace_go_match ")"%char "" _ "").
    cbn [str_replace_go]. rewrite str_app_nil. reflexivity.
Qed.

(** X3. For the text of an rgb color, ['rgb(' + body + ')'] with a body that
    holds no [')'] and no ['r'] (digits and commas, say), [lower_opacity]
    returns the rgba color with the same body and the opacity as fourth
    component. *)
Theorem lower_opacity_rgb (body : string) (opacity : pyfloat) :
  str_has ")"%char body = false -> str_has "r"%char body = false ->
  lower_opacity ("rgb(" ++ body ++ ")") opacity
  = "rgba(" ++ body ++ "," ++ str_float opacity ++ ")".
Proof.
  intros Hparen Hr. unfold lower_opacity, str_replace.
  destruct (lower_opacity_body "rgba(" body opacity Hparen Hr eq_refl)
    as [Hfirst Hsecond].
  rewrite (str_replace_go_match "r"%char "gb(" "rgba(" (body ++ ")")), Hfirst.
  exact Hsecond.
Qed.

Lemma lower_opacity_rgb_witness :
  str_has ")"%char "252,141,98" = false /\ str_has "r"%char "252,141,98" = false
  /\ lower_opacity ("rgb(" ++ "252,141,98" ++ ")") (PyFloat 0 (Decimal.D5 Decimal.Nil))
     = "rgba(" ++ "252,141,98" ++ "," ++ str_float (PyFloat 0 (Decimal.D5 Decimal.Nil)) ++ ")".
Proof.
  split; [reflexivity|]. split; [reflexivity|].
  apply lower_opacity_rgb; reflexivity.
Defined.

(** X4. A color whose text holds no [')'] and no ['r'], a hex color such as
    ['#66c2a5'] for one, comes back as it is: its opacity is not lowered. *)
Theorem lower_opacity_unchanged (color : string) (opacity : pyfloat) :
  str_has ")"%char color = false -> str_has "r"%char color = false ->
  lower_opacity color opacity = color.
Proof.
  intros Hparen Hr. unfold lower_opacity, str_replace.
  rewrite <- (str_app_nil color) at 1.
  rewrite (str_replace_go_free "r"%char "gb(" "rgba(" color "" Hr).
  change (str_replace_go "rgb(" "rgba(" O "") with "".
  rewrite (str_replace_go_free ")"%char "" _ color "" Hparen).
  cbn [str_replace_go]. apply str_app_nil.
Qed.

Lemma lower_opacity_unchanged_witness :
  str_has ")"%char "#66c2a5" = false /\ str_has "r"%char "#66c2a5" = false
  /\ lower_opacity "#66c2a5" band_opacity = "#66c2a5".
Proof.
  split; [reflexivity|]. split; [reflexivity|].
  apply lower_opacity_unchanged; reflexivity.
Defined.

(** X5. An rgba color is not recognised as one: [lower_opacity] appends the
    opacity as a fifth component.  Lowering the opacity of a color twice
    therefore does not replace the first opacity, it adds a second. *)
Theorem lower_opacity_rgba_appends (body : string) (opacity : pyfloat) :
  str_has ")"%char body = false -> str_has "r"%char body = false ->
  lower_opacity ("rgba(" ++ body ++ ")") opacity
  = "rgba(" ++ body ++ "," ++ str_float opacity ++ ")".
Proof.
  intros Hparen Hr. unfold lower_opacity, str_replace.
  destruct (lower_opacity_body "rgba(" body opacity Hparen Hr eq_refl)
    as [Hfirst Hsecond].
  change (str_replace_go "rgb(" "rgba(" O ("rgba(" ++ body ++ ")"))
    with ("rgba(" ++ str_replace_go "rgb(" "rgba(" O (body ++ ")")).
  rewrite Hfirst. exact Hsecond.
Qed.

Lemma lower_opacity_rgba_appends_witness :
  str_has ")"%char "102,194,165,0.2" = false
  /\ str_has "r"%char "102,194,165,0.2" = false
  /\ lower_opacity (lower_opacity "rgb(102,194,165)" band_opacity) band_opacity
     = "rgba(102,194,165,0.2,0.2)".
Proof.
  split; [reflexivity|]. split; [reflexivity|].
  apply (lower_opacity_rgba_appends "102,194,165,0.2" band_opacity); reflexivity.
Defined.

(** ** Overrides and charts *)

Section ChartMore.
Context {ext : Externals}.

(** X6. An override that is empty, [''] for a title or [''] or [[]] for the
    legend names, gives the label that omitting it gives, whatever the
    other arguments are. *)
Theorem create_label_falsy_override (y_col x_col : col)
    (title y_title x_title : option string) (legend_name : option col) :
  create_label y_col x_col (Some "") y_title x_title legend_name
  = create_label y_col x_col None y_title x_title legend_name
  /\ create_label y_col x_col title (Some "") x_title legend_name
     = create_label y_col x_col title None x_title legend_name
  /\ create_label y_col x_col title y_title (Some "") legend_name
     = create_label y_col x_col title y_title None legend_name
  /\ create_label y_col x_col title y_title x_title (Some (Name ""))
     = create_label y_col x_col title y_title x_title None
  /\ create_label y_col x_col title y_title x_title (Some (Names []))
     = create_label y_col x_col title y_title x_title None.
Proof. repeat split; reflexivity. Qed.

(** The figure [plot_mean_sr] returns. *)
Lemma plot_mean_sr_figure (sr_list : list (list float)) (time_sr : list float)
    (title y_title x_title : string) :
  plot_mean_sr (VSeriesList sr_list) (VSeries time_sr) title y_title x_title
  = Ok (mean_sr_figure sr_list time_sr title y_title x_title).
Proof.
  unfold plot_mean_sr, mean_sr_figure.
  cbn [as_series_list as_series mbind result_bind].
  destruct (calc_srs_mean_std sr_list) as [m s]. reflexivity.
Qed.

(** X7. A mean chart is the single-series chart [plot_sr] would build of the
    mean series, same main trace, same color and same layout, with one
    trace added after it: the envelope, drawn with a fully transparent
    line. *)
Theorem plot_mean_sr_extends_sr_chart (sr_list : list (list float))
    (time_sr : list float) (title y_title x_title : string) :
  let mean_sr := (calc_srs_mean_std sr_list).1 in
  let std_sr := (calc_srs_mean_std sr_list).2 in
  let single := sr_figure mean_sr time_sr title y_title x_title in
  exists envelope_trace,
    plot_mean_sr (VSeriesList sr_list) (VSeries time_sr) title y_title x_title
    = Ok (Figure (fig_data single ++ [envelope_trace]) (fig_layout single))
    /\ envelope_trace = envelope_of mean_sr std_sr time_sr
    /\ line_color (sc_line envelope_trace) = "rgba(0, 0, 0, 0)"
    /\ sc_showlegend envelope_trace = false.
Proof.
  intros mean_sr std_sr single. subst mean_sr std_sr single.
  rewrite plot_mean_sr_figure. unfold mean_sr_figure.
  destruct (calc_srs_mean_std sr_list) as [m s]. cbn [fst snd].
  eexists. split; [reflexivity|]. auto.
Qed.

(** X8. When the mean, the std and the time axis have the same length [n],
    the envelope is a closed path of [2n] points: its x and y lists have
    the same length, and x runs along the time axis and back, so the list
    reads the same in both directions. *)
Theorem plot_mean_sr_envelope_path (sr_list : list (list float))
    (time_sr : list float) (title y_title x_title : string) :
  length (calc_srs_mean_std sr_list).2 = length (calc_srs_mean_std sr_list).1 ->
  length time_sr = length (calc_srs_mean_std sr_list).1 ->
  exists main_trace envelope_trace layout (main_y envelope_y : list float),
    plot_mean_sr (VSeriesList sr_list) (VSeries time_sr) title y_title x_title
    = Ok (Figure [main_trace; envelope_trace] layout)
    /\ sc_y main_trace = VSeries main_y
    /\ sc_y envelope_trace = VSeries envelope_y
    /\ length (sc_x main_trace) = length main_y
    /\ length (sc_x envelope_trace) = length envelope_y
    /\ length (sc_x envelope_trace) = (2 * length time_sr)%nat
    /\ reverse (sc_x envelope_trace) = sc_x envelope_trace.
Proof.
  intros Hstd Htime. rewrite plot_mean_sr_figure. unfold mean_sr_figure.
  destruct (calc_srs_mean_std sr_list) as [m s]. cbn [fst snd] in Hstd, Htime.
  do 5 eexists. split; [reflexivity|].
  split; [reflexivity|]. split; [reflexivity|].
  cbn [sc_x sc_y envelope_of]. unfold sr_add, sr_sub.
  rewrite !length_app, !length_reverse, !length_zip_with, reverse_app,
    reverse_involutive.
  repeat split; lia.
Qed.

(** X9. Outside a test run, an export that succeeds is the only thing
    [save_image] does: the engine is asked once, for the path
    [smart_path] makes of the file path, nothing is logged, and the flag
    is left as it was, also after earlier failures. *)
Theorem save_image_success (fig : figure) (filepath v : string) (w : world)
    (d : ext_state) :
  environ w !! "PY_ENV" = Some v -> v <> "test" ->
  pio_write_image fig (smart_path filepath) (disk w) = (d, None) ->
  save_image fig filepath w
  = (Ok tt,
     World (environ w) d
       (trace w ++ [EvWriteImage fig (smart_path filepath) None])
       (once_called w)).
Proof.
  intros Henv Hv Hwrite.
  rewrite (save_image_run _ _ _ _ Henv Hv), Hwrite. reflexivity.
Qed.

End ChartMore.

Lemma plot_mean_sr_envelope_path_witness :
  let sr_list := [[1%float; 2%float]; [3%float; 4%float]] in
  let time_sr := [0%float; 100%float] in
  length (calc_srs_mean_std (Externals := sample_ext) sr_list).2
  = length (calc_srs_mean_std (Externals := sample_ext) sr_list).1
  /\ length time_sr = length (calc_srs_mean_std (Externals := sample_ext) sr_list).1
  /\ exists main_trace envelope_trace layout (main_y envelope_y : list float),
       plot_mean_sr (ext := sample_ext) (VSeriesList sr_list) (VSeries time_sr)
         "t" "y" "x"
       = Ok (Figure [main_trace; envelope_trace] layout)
       /\ sc_y main_trace = VSeries main_y
       /\ sc_y envelope_trace = VSeries envelope_y
       /\ length (sc_x main_trace) = length main_y
       /\ length (sc_x envelope_trace) = length envelope_y
       /\ length (sc_x envelope_trace) = (2 * length time_sr)%nat
       /\ reverse (sc_x envelope_trace) = sc_x envelope_trace.
Proof.
  intros sr_list time_sr. split; [reflexivity|]. split; [reflexivity|].
  apply (plot_mean_sr_envelope_path (ext := sample_ext) sr_list time_sr "t" "y" "x");
    reflexivity.
Defined.

Lemma save_image_success_witness :
  environ (sample_world dev_env) !! "PY_ENV" = Some "development"
  /\ "development" <> "test"
  /\ pio_write_image (Externals := sample_ext) sample_figure
       (smart_path (Externals := sample_ext) "graph.png")
       (disk (sample_world dev_env))
     = (["graph.png"], None)
  /\ save_image sample_figure "graph.png" (sample_world dev_env)
     = (Ok tt,
        World (ext := sample_ext) (environ (sample_world dev_env)) ["graph.png"]
          (trace (sample_world dev_env)
           ++ [EvWriteImage sample_figure
                 (smart_path (Externals := sample_ext) "graph.png") None])
          (once_called (sample_world dev_env))).
Proof.
  split; [reflexivity|]. split; [discriminate|]. split; [reflexivity|].
  apply (save_image_success (ext := sample_ext) sample_figure "graph.png"
           "development" (sample_world dev_env) ["graph.png"]);
    [reflexivity|discriminate|reflexivity].
Defined.

(** ** Test runs, and runs without PY_ENV *)

Section GatedFacts.
Context {ext : Externals}.

Lemma untouched_refl (w : world) : untouched w w.
Proof. unfold untouched. auto. Qed.

Lemma untouched_trans (w1 w2 w3 : world) :
  untouched w1 w2 -> untouched w2 w3 -> untouched w1 w3.
Proof.
  intros (E1 & F1 & X1 & W1) (E2 & F2 & X2 & W2). unfold untouched.
  repeat split; congruence.
Qed.

Lemma untouched_gated (w w' : world) : untouched w w' -> gated w -> gated w'.
Proof. intros (E & _) Hg. unfold gated in *. rewrite E. exact Hg. Qed.

(** Showing a figure, or any event that is no export and no warning,
    leaves exports and warnings as they are. *)
Lemma untouched_quiet (w : world) (d : ext_state) (e : event) :
  (forall fig filepath failure, e <> EvWriteImage fig filepath failure) ->
  is_warning e = false ->
  untouched w (World (environ w) d (trace w ++ [e]) (once_called w)).
Proof.
  intros He Hw. unfold untouched. cbn [environ once_called].
  split; [reflexivity|]. split; [reflexivity|].
  split; [apply exports_quiet, He|].
  unfold warnings. cbn [trace].
  rewrite filter_app, length_app, filter_flag_cons, filter_nil, Hw.
  cbn [length]. lia.
Qed.

Lemma silent_ret {A} (a : A) : silent (mret a : M A).
Proof. intros w _. apply untouched_refl. Qed.

Lemma silent_lift {A} (r : result A) : silent (lift r).
Proof. intros w _. apply untouched_refl. Qed.

Lemma silent_bind {A B} (m : M A) (f : A -> M B) :
  silent m -> (forall a, silent (f a)) -> silent (m ≫= f).
Proof.
  intros Hm Hf w Hg. specialize (Hm w Hg). unfold mbind, M_bind.
  destruct (m w) as [[a|e] w1]; cbn [snd] in *; [|exact Hm].
  eapply untouched_trans; [exact Hm|].
  apply Hf. eapply untouched_gated; eassumption.
Qed.

Lemma silent_for_each {A} (xs : list A) (body : A -> M unit) :
  (forall x, silent (body x)) -> silent (for_each xs body).
Proof.
  intros Hbody. induction xs as [|x xs IH]; cbn [for_each].
  - apply silent_ret.
  - apply silent_bind; [apply Hbody|intros _; exact IH].
Qed.

Lemma silent_plot (fig : figure) (auto_open : option bool) :
  silent (plot fig auto_open).
Proof.
  intros w _. unfold plot, mbind, M_bind, emit, on_disk.
  destruct is_jupyter; cbn [snd environ disk trace once_called];
    apply (untouched_quiet w); (discriminate || reflexivity).
Qed.

Lemma silent_plot_sr (sr time_sr : pyval) (title y_title x_title : string) :
  silent (plot_sr sr time_sr title y_title x_title).
Proof.
  unfold plot_sr.
  do 3 (apply silent_bind; [apply silent_lift|intros ?]).
  apply silent_bind; [apply silent_plot|intros _; apply silent_ret].
Qed.

(** Behind the gate [save_image] does nothing at all. *)
Lemma silent_save_image (fig : figure) (filepath : string) :
  silent (save_image fig filepath).
Proof.
  intros w [Htest|Hnone].
  - rewrite (save_image_skip _ _ _ Htest). apply untouched_refl.
  - rewrite (save_image_no_env _ _ _ Hnone). apply untouched_refl.
Qed.

Lemma silent_plot_session (session_spec : spec)
    (session_metrics : gmap string (gmap string pyval))
    (session_df : gmap string (list float)) (df_mode : string) :
  silent (plot_session session_spec session_metrics session_df df_mode).
Proof.
  unfold plot_session.
  apply silent_bind; [apply silent_lift|intros local_metrics].
  apply silent_bind.
  - apply silent_for_each. intros [name time].
    do 2 (apply silent_bind; [apply silent_lift|intros ?]).
    apply silent_bind; [apply silent_plot_sr|intros fig; apply silent_save_image].
  - intros _. destruct (decide (df_mode = "eval")); [apply silent_ret|].
    apply silent_for_each. intros [name time].
    do 2 (apply silent_bind; [apply silent_lift|intros ?]).
    apply silent_bind; [apply silent_plot_sr|intros fig; apply silent_save_image].
Qed.

Lemma silent_plot_trial (trial_spec : spec)
    (trial_metrics : gmap string (gmap string pyval)) :
  silent (plot_trial trial_spec trial_metrics).
Proof.
  unfold plot_trial.
  apply silent_bind; [apply silent_lift|intros local_metrics].
  apply silent_for_each. intros [name time].
  apply silent_bind; [|intros fig; apply silent_save_image].
  destruct (decide (name = "consistencies")).
  - do 2 (apply silent_bind; [apply silent_lift|intros ?]).
    apply silent_plot_sr.
  - do 2 (apply silent_bind; [apply silent_lift|intros ?]).
    apply silent_lift.
Qed.

Lemma silent_exec (c : call) : silent (exec c).
Proof.
  destruct c; cbn [exec].
  - apply silent_ret.
  - apply silent_bind; [apply silent_lift|intros ?; apply silent_ret].
  - apply silent_ret.
  - apply silent_bind; [apply silent_plot|intros ?; apply silent_ret].
  - apply silent_bind; [apply silent_plot_sr|intros ?; apply silent_ret].
  - apply silent_bind; [apply silent_lift|intros ?; apply silent_ret].
  - apply silent_bind; [apply silent_save_image|intros ?; apply silent_ret].
  - apply silent_bind; [apply silent_plot_session|intros ?; apply silent_ret].
  - apply silent_bind; [apply silent_plot_trial|intros ?; apply silent_ret].
Qed.

(** X10. In a test run, and in a run where [PY_ENV] is not set, no sequence of
    calls of the module ever reaches the export engine or the logger: the
    exports and the warnings stay what they were, and so do the
    environment and the flag. *)
Theorem gated_run_untouched (cs : list call) (w : world) :
  gated w -> untouched w (run cs w).
Proof.
  revert w. induction cs as [|c cs IH]; intros w Hg; cbn [run].
  - apply untouched_refl.
  - pose proof (silent_exec c w Hg) as Hc.
    eapply untouched_trans; [exact Hc|].
    apply IH. eapply untouched_gated; eassumption.
Qed.

End GatedFacts.

Lemma gated_run_untouched_witness :
  let cs := [ CallPlotTrial sample_spec sample_trial_metrics;
              CallSaveImage sample_figure "";
              CallPlotSession sample_spec sample_session_metrics
                sample_session_df "train" ] in
  gated (sample_world test_env)
  /\ untouched (sample_world test_env) (run cs (sample_world test_env)).
Proof.
  intros cs. split; [left; reflexivity|].
  apply (gated_run_untouched (ext := sample_ext) cs (sample_world test_env)).
  left. reflexivity.
Defined.

(** ** What the analysis plots show and export *)

Section EffectsFacts.
Context {ext : Externals}.

Lemma effects_ret (w : world) : effects (mret tt) w (Ok tt) [] [].
Proof. exists w. rewrite !app_nil_r. auto. Qed.

(** A computation that returns a value, then one that uses it. *)
Lemma effects_bind {A} (m : M A) (f : A -> M unit) (w w1 : world) (a : A)
    (r : result unit) (figs1 figs2 : list figure)
    (images1 images2 : list (figure * string)) :
  m w = (Ok a, w1) -> environ w1 = environ w ->
  shown w1 = (shown w ++ figs1)%list -> exports w1 = (exports w ++ images1)%list ->
  effects (f a) w1 r figs2 images2 ->
  effects (m ≫= f) w r (figs1 ++ figs2) (images1 ++ images2).
Proof.
  intros Hm Henv Hshown Hexp (w2 & Hf & Henv2 & Hshown2 & Hexp2).
  exists w2. rewrite (bind_ok _ _ _ _ _ Hm).
  split; [exact Hf|]. split; [congruence|].
  rewrite Hshown2, Hshown, Hexp2, Hexp, !app_assoc. auto.
Qed.

Lemma effects_seq (m1 m2 : M unit) (w : world) (r : result unit)
    (figs1 figs2 : list figure) (images1 images2 : list (figure * string)) :
  effects m1 w (Ok tt) figs1 images1 ->
  (forall w1, environ w1 = environ w -> effects m2 w1 r figs2 images2) ->
  effects (m1 ≫= fun _ => m2) w r (figs1 ++ figs2) (images1 ++ images2).
Proof.
  intros (w1 & H1 & Henv & Hshown & Hexp) H2.
  apply (effects_bind m1 (fun _ => m2) w w1 tt r figs1 figs2 images1 images2);
    auto.
Qed.

(** What raises stops what would follow. *)
Lemma effects_raise {A} (m : M A) (f : A -> M unit) (w w1 : world) (e : exn)
    (figs : list figure) (images : list (figure * string)) :
  m w = (Raise e, w1) -> environ w1 = environ w ->
  shown w1 = (shown w ++ figs)%list -> exports w1 = (exports w ++ images)%list ->
  effects (m ≫= f) w (Raise e) figs images.
Proof.
  intros Hm Henv Hshown Hexp. exists w1.
  rewrite (bind_raise _ _ _ _ _ Hm). auto.
Qed.

Lemma effects_seq_raise (m1 m2 : M unit) (w : world) (e : exn)
    (figs : list figure) (images : list (figure * string)) :
  effects m1 w (Raise e) figs images ->
  effects (m1 ≫= fun _ => m2) w (Raise e) figs images.
Proof.
  intros (w1 & H1 & Henv & Hshown & Hexp).
  apply (effects_raise m1 (fun _ => m2) w w1 e figs images); auto.
Qed.

Lemma effects_lookup {A} (d : gmap string A) (k : string) (a : A)
    (f : A -> M unit) (w : world) (r : result unit) (figs : list figure)
    (images : list (figure * string)) :
  d !! k = Some a -> effects (f a) w r figs images ->
  effects (lift (getitem d k) ≫= f) w r figs images.
Proof.
  intros Hk (w' & Hrun & Hrest). exists w'.
  rewrite (bind_ok _ _ _ _ _ (lift_getitem _ _ _ _ Hk)). auto.
Qed.

(** A missing key raises [KeyError] on the spot. *)
Lemma effects_lookup_missing {A} (d : gmap string A) (k : string)
    (f : A -> M unit) (w : world) :
  d !! k = None ->
  effects (lift (getitem d k) ≫= f) w (Raise (KeyError k)) [] [].
Proof.
  intros Hk. apply (effects_raise _ f w w (KeyError k) [] []);
    rewrite ?app_nil_r; auto.
  unfold lift, getitem. rewrite Hk. reflexivity.
Qed.

Lemma shown_write (w : world) (d : ext_state) (t : list event) (flag : bool) :
  Forall (fun e => match e with EvIplot _ _ | EvPlot _ _ => False | _ => True end) t ->
  shown (World (environ w) d (trace w ++ t) flag) = shown w.
Proof.
  intros Ht. unfold shown. cbn [trace]. rewrite omap_app.
  rewrite <- (app_nil_r (omap _ (trace w))) at 2. f_equal.
  induction Ht as [|e t He _ IH]; [reflexivity|].
  destruct e; cbn in *; (contradiction || exact IH).
Qed.

(** [plot_sr] returns [sr_figure] after showing it once; it exports
    nothing. *)
Lemma plot_sr_shows (sr time_sr : list float) (title y_title x_title : string)
    (w : world) :
  exists w',
    plot_sr (VSeries sr) (VSeries time_sr) title y_title x_title w
    = (Ok (sr_figure sr time_sr title y_title x_title), w')
    /\ environ w' = environ w
    /\ shown w' = (shown w ++ [sr_figure sr time_sr title y_title x_title])%list
    /\ exports w' = exports w.
Proof.
  unfold plot_sr, plot, sr_figure.
  cbn [as_series lift mbind M_bind]. unfold mbind, M_bind, lift.
  change (get_palette 1) with (Ok (take 3 cl.Set2_8)).
  cbn [take cl.Set2_8 index lookup list_lookup].
  destruct is_jupyter; unfold emit, on_disk; cbn -[create_layout];
    (eexists; split; [reflexivity|]; split; [reflexivity|]; split;
     [unfold shown; cbn [trace]; rewrite omap_app; reflexivity
     |apply (exports_quiet w); discriminate]).
Qed.

(** With [PY_ENV] set, [save_image] returns normally, shows nothing, and
    asks for the export unless this is a test run. *)
Lemma save_image_effects (fig : figure) (filepath v : string) (w : world) :
  environ w !! "PY_ENV" = Some v ->
  effects (save_image fig filepath) w (Ok tt) [] (saved v fig filepath).
Proof.
  intros Henv. unfold saved. destruct (decide (v = "test")) as [->|Hv].
  - exists w. rewrite (save_image_skip fig filepath w Henv), !app_nil_r. auto.
  - unfold effects. rewrite (save_image_run _ _ _ _ Henv Hv).
    eexists. split; [reflexivity|]. cbn [environ]. split; [reflexivity|].
    split.
    + rewrite app_nil_r. apply shown_write.
      destruct (pio_write_image fig (smart_path filepath) (disk w)) as [d [e|]];
        cbn [snd]; [destruct (once_called w)|]; repeat constructor.
    + unfold exports. cbn [trace]. rewrite omap_app.
      destruct (pio_write_image fig (smart_path filepath) (disk w)) as [d [e|]];
        cbn [snd]; [destruct (once_called w)|]; reflexivity.
Qed.

Lemma save_image_effects_no_env (fig : figure) (filepath : string) (w : world) :
  environ w !! "PY_ENV" = None ->
  effects (save_image fig filepath) w (Raise (KeyError "PY_ENV")) [] [].
Proof.
  intros Henv. exists w. rewrite (save_image_no_env _ _ _ Henv), !app_nil_r. auto.
Qed.

(** A loop whose rounds all return shows and exports what the rounds do,
    one after the other. *)
Lemma for_each_effects {A} (xs : list A) (body : A -> M unit)
    (figs : A -> list figure) (images : A -> list (figure * string))
    (w : world) :
  (forall x w1, x ∈ xs -> environ w1 = environ w ->
     effects (body x) w1 (Ok tt) (figs x) (images x)) ->
  effects (for_each xs body) w (Ok tt)
    (concat (map figs xs)) (concat (map images xs)).
Proof.
  revert w. induction xs as [|x xs IH]; intros w Hbody; cbn [for_each map concat].
  - apply effects_ret.
  - apply effects_seq.
    + apply Hbody; [left|reflexivity].
    + intros w1 He1. apply IH. intros y w2 Hy He2.
      apply Hbody; [right; exact Hy|congruence].
Qed.

(** A loop stops at the first round that raises, with what the rounds
    before it and the failing round itself have shown and exported. *)
Lemma for_each_effects_raise {A} (pre post : list A) (x : A)
    (body : A -> M unit) (figs : A -> list figure)
    (images : A -> list (figure * string)) (w : world) (e : exn)
    (figs_x : list figure) (images_x : list (figure * string)) :
  (forall y w1, y ∈ pre -> environ w1 = environ w ->
     effects (body y) w1 (Ok tt) (figs y) (images y)) ->
  (forall w1, environ w1 = environ w ->
     effects (body x) w1 (Raise e) figs_x images_x) ->
  effects (for_each (pre ++ x :: post) body) w (Raise e)
    (concat (map figs pre) ++ figs_x) (concat (map images pre) ++ images_x).
Proof.
  revert w. induction pre as [|y pre IH]; intros w Hpre Hx;
    cbn [for_each map concat app].
  - apply effects_seq_raise, Hx. reflexivity.
  - rewrite <- !app_assoc. apply effects_seq.
    + apply Hpre; [left|reflexivity].
    + intros w1 He1. apply IH.
      * intros z w2 Hz He2. apply Hpre; [right; exact Hz|congruence].
      * intros w2 He2. apply Hx. congruence.
Qed.

End EffectsFacts.

Section RoundFacts.
Context {ext : Externals}.

Lemma concat_singletons {A B} (f : A -> B) (l : list A) :
  concat (map (fun x => [f x]) l) = map f l.
Proof. induction l as [|x l IH]; [reflexivity|]. cbn. rewrite IH. reflexivity. Qed.

Lemma saved_jobs_app (v : string) (jobs1 jobs2 : list (figure * string)) :
  saved_jobs v (jobs1 ++ jobs2) = (saved_jobs v jobs1 ++ saved_jobs v jobs2)%list.
Proof. unfold saved_jobs. rewrite map_app, concat_app. reflexivity. Qed.

Lemma saved_jobs_map {A} (v : string) (chart : A -> figure) (path : A -> string)
    (l : list A) :
  saved_jobs v (map (fun x => (chart x, path x)) l)
  = concat (map (fun x => saved v (chart x) (path x)) l).
Proof. unfold saved_jobs. rewrite map_map. reflexivity. Qed.

(** In a test run nothing is exported; else every chart is, to the path
    [smart_path] makes of its file path. *)
Lemma saved_jobs_by_env (v : string) (jobs : list (figure * string)) :
  (v = "test" -> saved_jobs v jobs = [])
  /\ (v <> "test" ->
      saved_jobs v jobs
      = map (fun job : figure * string => (job.1, smart_path job.2)) jobs).
Proof.
  split; intros Hv; induction jobs as [|[fig path] jobs IH]; try reflexivity;
    unfold saved_jobs in *; cbn [map concat fst snd]; unfold saved at 1.
  - rewrite decide_True by exact Hv. exact IH.
  - rewrite decide_False by exact Hv. rewrite IH. reflexivity.
Qed.

(** A round of the first loop of [plot_session], and of the consistencies
    round of [plot_trial]: two lookups, the chart is shown, then saved. *)
Lemma series_round_effects (d : gmap string pyval)
    (name time title filepath : string) (w : world) (r : result unit)
    (images : list (figure * string)) :
  has_series d name -> has_series d time ->
  (forall w1, environ w1 = environ w ->
     effects (save_image (sr_figure (series_of d name) (series_of d time)
                            title name time) filepath) w1 r [] images) ->
  effects
    (sr ← lift (getitem d name);
     time_sr ← lift (getitem d time);
     fig ← plot_sr sr time_sr title name time;
     save_image fig filepath)
    w r [sr_figure (series_of d name) (series_of d time) title name time] images.
Proof.
  intros [sr Hn] [t Ht] Hsave. unfold series_of in *. rewrite Hn, Ht in *.
  apply (effects_lookup _ _ _ _ _ _ _ _ Hn).
  apply (effects_lookup _ _ _ _ _ _ _ _ Ht).
  destruct (plot_sr_shows sr t title name time w) as (w1 & Hp & He & Hs & Hx).
  apply (effects_bind _ _ w w1 _ r [_] [] [] images Hp He Hs);
    [rewrite app_nil_r; exact Hx|apply Hsave, He].
Qed.

(** A round of the second loop of [plot_session], on the data frame. *)
Lemma column_round_effects (df : gmap string (list float))
    (name time title filepath : string) (w : world) (r : result unit)
    (images : list (figure * string)) :
  is_Some (df !! name) -> is_Some (df !! time) ->
  (forall w1, environ w1 = environ w ->
     effects (save_image (sr_figure (column_of df name) (column_of df time)
                            title name time) filepath) w1 r [] images) ->
  effects
    (sr ← lift (getitem df name);
     time_sr ← lift (getitem df time);
     fig ← plot_sr (VSeries sr) (VSeries time_sr) title name time;
     save_image fig filepath)
    w r [sr_figure (column_of df name) (column_of df time) title name time] images.
Proof.
  intros [sr Hn] [t Ht] Hsave. unfold column_of in *. rewrite Hn, Ht in *.
  cbn [default] in *.
  apply (effects_lookup _ _ _ _ _ _ _ _ Hn).
  apply (effects_lookup _ _ _ _ _ _ _ _ Ht).
  destruct (plot_sr_shows sr t title name time w) as (w1 & Hp & He & Hs & Hx).
  apply (effects_bind _ _ w w1 _ r [_] [] [] images Hp He Hs);
    [rewrite app_nil_r; exact Hx|apply Hsave, He].
Qed.

(** A round of [plot_trial] for a pair that is not the one of
    consistencies: the mean chart is built and saved, and not shown. *)
Lemma mean_round_effects (d : gmap string pyval)
    (name time title filepath : string) (w : world) (r : result unit)
    (images : list (figure * string)) :
  has_series_list d name -> has_series d time ->
  effects (save_image (mean_sr_figure (series_list_of d name) (series_of d time)
                         title name time) filepath) w r [] images ->
  effects
    ((sr_list ← lift (getitem d name);
      time_sr ← lift (getitem d time);
      lift (plot_mean_sr sr_list time_sr title name time))
     ≫= fun fig => save_image fig filepath)
    w r [] images.
Proof.
  intros [l Hn] [t Ht] Hsave. unfold series_list_of, series_of in *.
  rewrite Hn, Ht in *.
  apply (effects_bind _ _ w w (mean_sr_figure l t title name time)
           r [] [] [] images); rewrite ?app_nil_r; auto.
  rewrite (bind_ok _ _ _ _ _ (lift_getitem _ _ _ _ Hn)),
    (bind_ok _ _ _ _ _ (lift_getitem _ _ _ _ Ht)).
  unfold lift. rewrite plot_mean_sr_figure. reflexivity.
Qed.

End RoundFacts.

Section SessionEffects.
Context {ext : Externals}.
Variable session_spec : spec.
Variable session_metrics : gmap string (gmap string pyval).
Variable local_metrics : gmap string pyval.
Variable session_df : gmap string (list float).
Variable df_mode : string.

Hypothesis Hlocal : session_metrics !! "local" = Some local_metrics.

(** The first loop of [plot_session], over any list of pairs whose
    metrics are there. *)
Lemma session_metrics_loop (pairs : list (string * string)) (w : world)
    (v : string) :
  Forall (session_pair_ok local_metrics) pairs ->
  environ w !! "PY_ENV" = Some v ->
  effects
    (for_each pairs (fun '(name, time) =>
       sr ← lift (getitem local_metrics name);
       time_sr ← lift (getitem local_metrics time);
       fig ← plot_sr sr time_sr (session_title session_spec) name time;
       save_image fig (session_filepath (prepath (spec_meta session_spec))
                         df_mode name time)))
    w (Ok tt)
    (map fst (session_metrics_jobs session_spec local_metrics df_mode pairs))
    (saved_jobs v (session_metrics_jobs session_spec local_metrics df_mode pairs)).
Proof.
  intros Hpairs Henv. unfold session_metrics_jobs.
  rewrite saved_jobs_map, map_map. cbn [fst]. rewrite <- concat_singletons.
  apply for_each_effects. intros [name time] w1 Hin Hw1.
  rewrite Forall_forall in Hpairs. destruct (Hpairs _ Hin) as [Hn Ht].
  apply series_round_effects; [exact Hn|exact Ht|].
  intros w2 Hw2. apply save_image_effects. rewrite Hw2, Hw1. exact Henv.
Qed.

(** The second loop, over any list of pairs whose columns are there. *)
Lemma session_df_loop (pairs : list (string * string)) (w : world) (v : string) :
  Forall (session_df_pair_ok session_df) pairs ->
  environ w !! "PY_ENV" = Some v ->
  effects
    (for_each pairs (fun '(name, time) =>
       sr ← lift (getitem session_df name);
       time_sr ← lift (getitem session_df time);
       fig ← plot_sr (VSeries sr) (VSeries time_sr)
               (session_title session_spec) name time;
       save_image fig (session_filepath (prepath (spec_meta session_spec))
                         df_mode name time)))
    w (Ok tt)
    (map fst (session_df_jobs session_spec session_df df_mode pairs))
    (saved_jobs v (session_df_jobs session_spec session_df df_mode pairs)).
Proof.
  intros Hpairs Henv. unfold session_df_jobs.
  rewrite saved_jobs_map, map_map. cbn [fst]. rewrite <- concat_singletons.
  apply for_each_effects. intros [name time] w1 Hin Hw1.
  rewrite Forall_forall in Hpairs. destruct (Hpairs _ Hin) as [Hn Ht].
  apply column_round_effects; [exact Hn|exact Ht|].
  intros w2 Hw2. apply save_image_effects. rewrite Hw2, Hw1. exact Henv.
Qed.

(** X11. With [PY_ENV] set and the metrics there (and the columns of the data
    frame, unless [df_mode] is ['eval']), [plot_session] returns normally.
    It shows every chart once, in the order of the pairs, and hands each
    to [save_image]: in a test run the charts are still shown and none is
    exported; otherwise the exports are the charts shown, in the same
    order. *)
Theorem plot_session_shows_and_saves (w : world) (v : string) :
  Forall (session_pair_ok local_metrics) session_name_time_pairs ->
  (df_mode <> "eval" ->
   Forall (session_df_pair_ok session_df) session_df_name_time_pairs) ->
  environ w !! "PY_ENV" = Some v ->
  let jobs := session_jobs session_spec local_metrics session_df df_mode in
  effects (plot_session session_spec session_metrics session_df df_mode)
    w (Ok tt) (map fst jobs) (saved_jobs v jobs)
  /\ (v = "test" -> saved_jobs v jobs = [])
  /\ (v <> "test" ->
      map fst (saved_jobs v jobs) = map fst jobs
      /\ map snd (saved_jobs v jobs) = map (fun job => smart_path job.2) jobs).
Proof.
  intros Hpairs Hdf Henv jobs. subst jobs.
  split; [|split; [apply saved_jobs_by_env|]].
  - unfold plot_session, session_jobs.
    apply (effects_lookup _ _ _ _ _ _ _ _ Hlocal).
    rewrite map_app, saved_jobs_app. apply effects_seq.
    + apply session_metrics_loop; assumption.
    + intros w1 Hw1. destruct (decide (df_mode = "eval")) as [Heval|Hmode].
      * apply effects_ret.
      * apply session_df_loop; [apply Hdf, Hmode|rewrite Hw1; exact Henv].
  - intros Hv. rewrite (proj2 (saved_jobs_by_env v _) Hv), !map_map.
    split; reflexivity.
Qed.

(** X12. Without [PY_ENV], [plot_session] gets as far as showing the first
    chart, that of mean_returns: the first [save_image] then raises
    [KeyError], nothing is exported and no other chart is made. *)
Theorem plot_session_without_PY_ENV (w : world) :
  session_pair_ok local_metrics ("mean_returns", "frames") ->
  environ w !! "PY_ENV" = None ->
  effects (plot_session session_spec session_metrics session_df df_mode)
    w (Raise (KeyError "PY_ENV"))
    [session_chart local_metrics (session_title session_spec)
       ("mean_returns", "frames")]
    [].
Proof.
  intros [Hn Ht] Henv. unfold plot_session.
  apply (effects_lookup _ _ _ _ _ _ _ _ Hlocal).
  apply effects_seq_raise.
  apply (for_each_effects_raise [] _ ("mean_returns", "frames") _
           (fun _ => []) (fun _ => []) w).
  - intros y w1 Hy. inversion Hy.
  - intros w1 Hw1. apply series_round_effects; [exact Hn|exact Ht|].
    intros w2 Hw2. apply save_image_effects_no_env.
    rewrite Hw2, Hw1. exact Henv.
Qed.

(** X13. When a metric is missing, [plot_session] makes the charts of the
    pairs before the first one that needs it, shows and saves them, and
    then raises [KeyError] with the missing key: the metric itself if it is
    missing, else its time axis. *)
Theorem plot_session_missing_metric (pre post : list (string * string))
    (name time key v : string) (w : world) :
  session_name_time_pairs = (pre ++ (name, time) :: post)%list ->
  Forall (session_pair_ok local_metrics) pre ->
  (key = name /\ local_metrics !! name = None)
  \/ (key = time /\ is_Some (local_metrics !! name)
      /\ local_metrics !! time = None) ->
  environ w !! "PY_ENV" = Some v ->
  let jobs := session_metrics_jobs session_spec local_metrics df_mode pre in
  effects (plot_session session_spec session_metrics session_df df_mode)
    w (Raise (KeyError key)) (map fst jobs) (saved_jobs v jobs).
Proof.
  intros Hsplit Hpre Hmissing Henv jobs. subst jobs. unfold plot_session.
  apply (effects_lookup _ _ _ _ _ _ _ _ Hlocal).
  apply effects_seq_raise. rewrite Hsplit.
  unfold session_metrics_jobs.
  rewrite saved_jobs_map, map_map. cbn [fst]. rewrite <- concat_singletons.
  rewrite <- (app_nil_r (concat (map (fun x => [_]) pre))).
  rewrite <- (app_nil_r (concat (map (fun x => saved v _ _) pre))).
  apply for_each_effects_raise.
  - intros [n t] w1 Hin Hw1.
    rewrite Forall_forall in Hpre. destruct (Hpre _ Hin) as [Hn Ht].
    apply series_round_effects; [exact Hn|exact Ht|].
    intros w2 Hw2. apply save_image_effects. rewrite Hw2, Hw1. exact Henv.
  - intros w1 Hw1.
    destruct Hmissing as [[-> Hnone]|(-> & [a Ha] & Hnone)].
    + apply effects_lookup_missing, Hnone.
    + apply (effects_lookup _ _ _ _ _ _ _ _ Ha).
      apply effects_lookup_missing, Hnone.
Qed.

(** X14. With a [df_mode] other than ['eval'] and a column missing from the
    data frame, the charts of the metrics and those of the columns before
    the missing one have been shown and saved when [plot_session] raises
    [KeyError] with the missing key. *)
Theorem plot_session_missing_column (pre post : list (string * string))
    (name time key v : string) (w : world) :
  df_mode <> "eval" ->
  Forall (session_pair_ok local_metrics) session_name_time_pairs ->
  session_df_name_time_pairs = (pre ++ (name, time) :: post)%list ->
  Forall (session_df_pair_ok session_df) pre ->
  (key = name /\ session_df !! name = None)
  \/ (key = time /\ is_Some (session_df !! name) /\ session_df !! time = None) ->
  environ w !! "PY_ENV" = Some v ->
  let jobs :=
    (session_metrics_jobs session_spec local_metrics df_mode
       session_name_time_pairs
     ++ session_df_jobs session_spec session_df df_mode pre)%list in
  effects (plot_session session_spec session_metrics session_df df_mode)
    w (Raise (KeyError key)) (map fst jobs) (saved_jobs v jobs).
Proof.
  intros Hmode Hpairs Hsplit Hpre Hmissing Henv jobs. subst jobs.
  unfold plot_session.
  apply (effects_lookup _ _ _ _ _ _ _ _ Hlocal).
  rewrite map_app, saved_jobs_app. apply effects_seq.
  - apply session_metrics_loop; assumption.
  - intros w1 Hw1. rewrite decide_False by exact Hmode. rewrite Hsplit.
    unfold session_df_jobs.
    rewrite saved_jobs_map, map_map. cbn [fst]. rewrite <- concat_singletons.
    rewrite <- (app_nil_r (concat (map (fun x => [_]) pre))).
    rewrite <- (app_nil_r (concat (map (fun x => saved v _ _) pre))).
    apply for_each_effects_raise.
    + intros [n t] w2 Hin Hw2.
      rewrite Forall_forall in Hpre. destruct (Hpre _ Hin) as [Hn Ht].
      apply column_round_effects; [exact Hn|exact Ht|].
      intros w3 Hw3. apply save_image_effects. rewrite Hw3, Hw2, Hw1. exact Henv.
    + intros w2 Hw2.
      destruct Hmissing as [[-> Hnone]|(-> & [a Ha] & Hnone)].
      * apply effects_lookup_missing, Hnone.
      * apply (effects_lookup _ _ _ _ _ _ _ _ Ha).
        apply effects_lookup_missing, Hnone.
Qed.

End SessionEffects.

(** ** The charts of a session, one by one *)

Section SessionFacts.
Context {ext : Externals}.
Variable session_spec : spec.
Variable session_metrics : gmap string (gmap string pyval).
Variable local_metrics : gmap string pyval.
Variables mean_returns strengths sample_efficiencies
          training_efficiencies stabilities frames opt_steps : list float.

Hypothesis Hlocal : session_metrics !! "local" = Some local_metrics.
Hypothesis Hmean_returns :
  local_metrics !! "mean_returns" = Some (VSeries mean_returns).
Hypothesis Hstrengths : local_metrics !! "strengths" = Some (VSeries strengths).
Hypothesis Hsample_efficiencies :
  local_metrics !! "sample_efficiencies" = Some (VSeries sample_efficiencies).
Hypothesis Htraining_efficiencies :
  local_metrics !! "training_efficiencies" = Some (VSeries training_efficiencies).
Hypothesis Hstabilities :
  local_metrics !! "stabilities" = Some (VSeries stabilities).
Hypothesis Hframes : local_metrics !! "frames" = Some (VSeries frames).
Hypothesis Hopt_steps : local_metrics !! "opt_steps" = Some (VSeries opt_steps).

(** C7. Given the session's metrics, and outside a test run,
    [plot_session] returns normally having shown, and asked for the
    export of, one single-series chart per pair, in order: mean_returns,
    strengths, sample_efficiencies, training_efficiencies (against
    opt_steps) and stabilities.  With [df_mode = 'eval'] that is all,
    whatever [session_df] holds: no other figure is shown and no other
    export is asked for.  With any other [df_mode] the charts of loss,
    explore_var and entropy against total_t, read from [session_df],
    follow, each shown and exported. *)
Theorem plot_session_pairs (w : world) (v df_mode : string)
    (session_df : gmap string (list float)) :
  environ w !! "PY_ENV" = Some v -> v <> "test" ->
  let title := session_title session_spec in
  let image sr time_sr name time :=
    (sr_figure sr time_sr title name time,
     smart_path (prepath (spec_meta session_spec) ++ "_session_graph_"
                 ++ df_mode ++ "_" ++ name ++ "_vs_" ++ time ++ ".png")) in
  let metrics_images :=
    [ image mean_returns frames "mean_returns" "frames";
      image strengths frames "strengths" "frames";
      image sample_efficiencies frames "sample_efficiencies" "frames";
      image training_efficiencies opt_steps "training_efficiencies" "opt_steps";
      image stabilities frames "stabilities" "frames" ] in
  (df_mode = "eval" ->
     effects (plot_session session_spec session_metrics session_df df_mode)
       w (Ok tt) (map fst metrics_images) metrics_images)
  /\ (df_mode <> "eval" ->
      forall loss explore_var entropy total_t : list float,
        session_df !! "loss" = Some loss ->
        session_df !! "explore_var" = Some explore_var ->
        session_df !! "entropy" = Some entropy ->
        session_df !! "total_t" = Some total_t ->
        let df_images :=
          [ image loss total_t "loss" "total_t";
            image explore_var total_t "explore_var" "total_t";
            image entropy total_t "entropy" "total_t" ] in
        effects (plot_session session_spec session_metrics session_df df_mode)
          w (Ok tt)
          (map fst (metrics_images ++ df_images))
          (metrics_images ++ df_images)).
Proof.
  intros Henv Hv title image metrics_images.
  assert (Hpairs : Forall (session_pair_ok local_metrics) session_name_time_pairs).
  { unfold session_name_time_pairs, session_pair_ok, has_series.
    repeat constructor; cbn [fst snd]; eauto. }
  assert (Hjobs :
    session_metrics_jobs session_spec local_metrics df_mode session_name_time_pairs
    = map (fun job : figure * string => (job.1, job.2))
        [ (sr_figure mean_returns frames title "mean_returns" "frames",
           session_filepath (prepath (spec_meta session_spec)) df_mode
             "mean_returns" "frames");
          (sr_figure strengths frames title "strengths" "frames",
           session_filepath (prepath (spec_meta session_spec)) df_mode
             "strengths" "frames");
          (sr_figure sample_efficiencies frames title
             "sample_efficiencies" "frames",
           session_filepath (prepath (spec_meta session_spec)) df_mode
             "sample_efficiencies" "frames");
          (sr_figure training_efficiencies opt_steps title
             "training_efficiencies" "opt_steps",
           session_filepath (prepath (spec_meta session_spec)) df_mode
             "training_efficiencies" "opt_steps");
          (sr_figure stabilities frames title "stabilities" "frames",
           session_filepath (prepath (spec_meta session_spec)) df_mode
             "stabilities" "frames") ]).
  { unfold session_metrics_jobs, session_name_time_pairs, session_chart,
      series_of.
    cbn [map fst snd].
    rewrite Hmean_returns, Hstrengths, Hsample_efficiencies,
      Htraining_efficiencies, Hstabilities, Hframes, Hopt_steps.
    reflexivity. }
  assert (Hmetrics : forall w0 : world,
    environ w0 !! "PY_ENV" = Some v ->
    effects
      (for_each session_name_time_pairs (fun '(name, time) =>
         sr ← lift (getitem local_metrics name);
         time_sr ← lift (getitem local_metrics time);
         fig ← plot_sr sr time_sr (session_title session_spec) name time;
         save_image fig (session_filepath (prepath (spec_meta session_spec))
                           df_mode name time)))
      w0 (Ok tt) (map fst metrics_images) metrics_images).
  { intros w0 Hw0.
    pose proof (session_metrics_loop session_spec local_metrics df_mode
                  session_name_time_pairs w0 v Hpairs Hw0) as H.
    rewrite Hjobs in H. unfold saved_jobs, saved in H.
    cbn [map concat fst snd] in H.
    destruct (decide (v = "test")) as [Heq|_]; [contradiction|].
    exact H. }
  split; [intros Heval|intros Hmode loss explore_var entropy total_t
                         Hloss Hexplore Hentropy Htotal df_images];
    unfold plot_session; apply (effects_lookup _ _ _ _ _ _ _ _ Hlocal).
  - rewrite decide_True by exact Heval.
    rewrite <- (app_nil_r (map fst metrics_images)).
    rewrite <- (app_nil_r metrics_images) at 2.
    apply effects_seq; [apply Hmetrics, Henv|].
    intros w1 Hw1. apply effects_ret.
  - rewrite decide_False by exact Hmode. rewrite map_app.
    apply effects_seq; [apply Hmetrics, Henv|].
    intros w1 Hw1.
    assert (Hdf : Forall (session_df_pair_ok session_df)
                    session_df_name_time_pairs).
    { unfold session_df_name_time_pairs, session_df_pair_ok.
      repeat constructor; cbn [fst snd]; eauto. }
    pose proof (session_df_loop session_spec session_df df_mode
                  session_df_name_time_pairs w1 v Hdf
                  ltac:(rewrite Hw1; exact Henv)) as H.
    unfold session_df_jobs, session_df_name_time_pairs, session_df_chart,
      column_of, saved_jobs, saved in H.
    cbn [map concat fst snd] in H.
    rewrite Hloss, Hexplore, Hentropy, Htotal in H.
    destruct (decide (v = "test")) as [Heq|_]; [contradiction|].
    exact H.
Qed.

End SessionFacts.

Lemma plot_session_pairs_witness :
  sample_session_metrics !! "local" = Some sample_session_local
  /\ environ (sample_world dev_env) !! "PY_ENV" = Some "development"
  /\ "development" <> "test"
  /\ (exists l, length l = 5%nat
        /\ effects (plot_session sample_spec sample_session_metrics ∅ "eval")
             (sample_world dev_env) (Ok tt) (map fst l) l)
  /\ (exists l, length l = 8%nat
        /\ effects (plot_session sample_spec sample_session_metrics
                      sample_session_df "train")
             (sample_world dev_env) (Ok tt) (map fst l) l).
Proof.
  split; [reflexivity|]. split; [reflexivity|]. split; [discriminate|].
  split.
  - destruct (plot_session_pairs (ext := sample_ext) sample_spec
                sample_session_metrics sample_session_local
                [1%float; 2%float] [0%float; 1%float] [1%float; 1%float]
                [1%float; 3%float] [1%float; 1%float]
                [0%float; 100%float] [0%float; 10%float]
                eq_refl eq_refl eq_refl eq_refl eq_refl eq_refl eq_refl eq_refl
                (sample_world dev_env) "development" "eval" ∅ eq_refl
                ltac:(discriminate)) as [H _].
    eexists. split; [|exact (H eq_refl)]. reflexivity.
  - destruct (plot_session_pairs (ext := sample_ext) sample_spec
                sample_session_metrics sample_session_local
                [1%float; 2%float] [0%float; 1%float] [1%float; 1%float]
                [1%float; 3%float] [1%float; 1%float]
                [0%float; 100%float] [0%float; 10%float]
                eq_refl eq_refl eq_refl eq_refl eq_refl eq_refl eq_refl eq_refl
                (sample_world dev_env) "development" "train" sample_session_df
                eq_refl ltac:(discriminate)) as [_ H].
    eexists. split;
      [|exact (H ltac:(discriminate) [3%float; 2%float] [1%float; 0%float]
                 [2%float; 1%float] [0%float; 100%float]
                 eq_refl eq_refl eq_refl eq_refl)].
    reflexivity.
Defined.

Section TrialEffects.
Context {ext : Externals}.
Variable trial_spec : spec.
Variable trial_metrics : gmap string (gmap string pyval).
Variable local_metrics : gmap string pyval.

Hypothesis Hlocal : trial_metrics !! "local" = Some local_metrics.

(** A round of [plot_trial]: the chart of consistencies is shown and
    saved, any other is saved without being shown. *)
Lemma trial_round_effects (name time filepath : string) (w : world)
    (r : result unit) (images : list (figure * string)) :
  trial_pair_ok local_metrics (name, time) ->
  (forall w1, environ w1 = environ w ->
     effects (save_image (trial_chart local_metrics (trial_title trial_spec)
                            (name, time)) filepath) w1 r [] images) ->
  effects
    ((if decide (name = "consistencies")
      then
        sr ← lift (getitem local_metrics name);
        time_sr ← lift (getitem local_metrics time);
        plot_sr sr time_sr (trial_title trial_spec) name time
      else
        sr_list ← lift (getitem local_metrics name);
        time_sr ← lift (getitem local_metrics time);
        lift (plot_mean_sr sr_list time_sr (trial_title trial_spec) name time))
     ≫= fun fig => save_image fig filepath)
    w r
    (if decide (name = "consistencies")
     then [trial_chart local_metrics (trial_title trial_spec) (name, time)]
     else [])
    images.
Proof.
  unfold trial_pair_ok, trial_chart. cbn [fst snd].
  destruct (decide (name = "consistencies")) as [Hc|Hc]; intros [Hn Ht] Hsave.
  - destruct Hn as [sr Hn]. destruct Ht as [t Ht].
    unfold series_of in *. rewrite Hn, Ht in *.
    destruct (plot_sr_shows sr t (trial_title trial_spec) name time w)
      as (w1 & Hp & He & Hs & Hx).
    apply (effects_bind _ _ w w1 (sr_figure sr t (trial_title trial_spec) name time)
             r [_] [] [] images);
      [|exact He|exact Hs|rewrite app_nil_r; exact Hx|apply Hsave, He].
    rewrite (bind_ok _ _ _ _ _ (lift_getitem _ _ _ _ Hn)),
      (bind_ok _ _ _ _ _ (lift_getitem _ _ _ _ Ht)).
    exact Hp.
  - apply mean_round_effects; [exact Hn|exact Ht|]. apply Hsave. reflexivity.
Qed.

(** The loop of [plot_trial], over any list of pairs whose metrics are
    there. *)
Lemma trial_loop (pairs : list (string * string)) (w : world) (v : string) :
  Forall (trial_pair_ok local_metrics) pairs ->
  environ w !! "PY_ENV" = Some v ->
  effects
    (for_each pairs (fun '(name, time) =>
       fig ←
         (if decide (name = "consistencies")
          then
            sr ← lift (getitem local_metrics name);
            time_sr ← lift (getitem local_metrics time);
            plot_sr sr time_sr (trial_title trial_spec) name time
          else
            sr_list ← lift (getitem local_metrics name);
            time_sr ← lift (getitem local_metrics time);
            lift (plot_mean_sr sr_list time_sr (trial_title trial_spec) name time));
       save_image fig (trial_filepath (prepath (spec_meta trial_spec)) name time)))
    w (Ok tt)
    (concat (map (fun pair : string * string =>
                    if decide (pair.1 = "consistencies")
                    then [trial_chart local_metrics (trial_title trial_spec) pair]
                    else []) pairs))
    (saved_jobs v (trial_jobs trial_spec local_metrics pairs)).
Proof.
  intros Hpairs Henv. unfold trial_jobs. rewrite saved_jobs_map.
  apply for_each_effects. intros [name time] w1 Hin Hw1.
  rewrite Forall_forall in Hpairs.
  apply trial_round_effects; [apply Hpairs, Hin|].
  intros w2 Hw2. apply save_image_effects. rewrite Hw2, Hw1. exact Henv.
Qed.

(** X15. With [PY_ENV] set and the metrics there, [plot_trial] returns
    normally.  Only the chart of consistencies is shown; the five mean
    charts are built and handed to [save_image] without being shown.  In
    a test run nothing is exported; otherwise all six charts are, in the
    order of the pairs. *)
Theorem plot_trial_shows_and_saves (w : world) (v : string) :
  Forall (trial_pair_ok local_metrics) trial_name_time_pairs ->
  environ w !! "PY_ENV" = Some v ->
  let jobs := trial_jobs trial_spec local_metrics trial_name_time_pairs in
  effects (plot_trial trial_spec trial_metrics) w (Ok tt)
    [sr_figure (series_of local_metrics "consistencies")
       (series_of local_metrics "frames") (trial_title trial_spec)
       "consistencies" "frames"]
    (saved_jobs v jobs)
  /\ length jobs = 6%nat
  /\ (v = "test" -> saved_jobs v jobs = [])
  /\ (v <> "test" ->
      map fst (saved_jobs v jobs) = map fst jobs
      /\ map snd (saved_jobs v jobs) = map (fun job => smart_path job.2) jobs).
Proof.
  intros Hpairs Henv jobs. subst jobs.
  split; [|split; [reflexivity|split; [apply saved_jobs_by_env|]]].
  - unfold plot_trial. apply (effects_lookup _ _ _ _ _ _ _ _ Hlocal).
    apply (trial_loop trial_name_time_pairs w v Hpairs Henv).
  - intros Hv. rewrite (proj2 (saved_jobs_by_env v _) Hv), !map_map.
    split; reflexivity.
Qed.

(** X16. Without [PY_ENV], [plot_trial] builds the first mean chart and the
    first [save_image] raises [KeyError]: nothing is shown, nothing is
    exported. *)
Theorem plot_trial_without_PY_ENV (w : world) :
  trial_pair_ok local_metrics ("mean_returns", "frames") ->
  environ w !! "PY_ENV" = None ->
  effects (plot_trial trial_spec trial_metrics) w
    (Raise (KeyError "PY_ENV")) [] [].
Proof.
  intros Hok Henv. unfold plot_trial.
  apply (effects_lookup _ _ _ _ _ _ _ _ Hlocal).
  apply (for_each_effects_raise [] _ ("mean_returns", "frames") _
           (fun _ => []) (fun _ => []) w).
  - intros y w1 Hy. inversion Hy.
  - intros w1 Hw1.
    apply (trial_round_effects "mean_returns" "frames" _ w1 _ [] Hok).
    intros w2 Hw2. apply save_image_effects_no_env.
    rewrite Hw2, Hw1. exact Henv.
Qed.

End TrialEffects.

Section MissingLocal.
Context {ext : Externals}.

(** X18. Metrics without the ['local'] entry make both analysis plots raise
    [KeyError('local')] before anything is shown, exported or changed. *)
Theorem plot_without_local_metrics (a_spec : spec)
    (metrics : gmap string (gmap string pyval))
    (session_df : gmap string (list float)) (df_mode : string) (w : world) :
  metrics !! "local" = None ->
  plot_session a_spec metrics session_df df_mode w = (Raise (KeyError "local"), w)
  /\ plot_trial a_spec metrics w = (Raise (KeyError "local"), w).
Proof.
  intros Hnone. unfold plot_session, plot_trial.
  split; apply bind_raise; unfold lift, getitem; rewrite Hnone; reflexivity.
Qed.

End MissingLocal.

Section TrialMissing.
Context {ext : Externals}.
Variable trial_spec : spec.
Variable trial_metrics : gmap string (gmap string pyval).
Variable local_metrics : gmap string pyval.

Hypothesis Hlocal : trial_metrics !! "local" = Some local_metrics.

(** The pair of consistencies is the last one: no pair before another is
    it. *)
Lemma trial_pairs_before (pre post : list (string * string))
    (pair : string * string) :
  trial_name_time_pairs = (pre ++ pair :: post)%list ->
  Forall (fun p : string * string => p.1 <> "consistencies") pre.
Proof.
  intros Hsplit.
  assert (Hlen : (length pre <= 5)%nat).
  { apply (f_equal length) in Hsplit. rewrite length_app in Hsplit.
    cbn in Hsplit. lia. }
  rewrite <- (take_app_length pre (pair :: post)), <- Hsplit.
  replace (length pre) with (Nat.min (length pre) 5) by lia.
  rewrite <- take_take. apply Forall_take.
  repeat constructor; discriminate.
Qed.

(** X17. When a metric is missing, [plot_trial] has saved the mean charts of
    the pairs before the first one that needs it when it raises
    [KeyError] with the missing key; consistencies coming last, no chart
    has been shown by then. *)
Theorem plot_trial_missing_metric (pre post : list (string * string))
    (name time key v : string) (w : world) :
  trial_name_time_pairs = (pre ++ (name, time) :: post)%list ->
  Forall (trial_pair_ok local_metrics) pre ->
  (key = name /\ local_metrics !! name = None)
  \/ (key = time /\ is_Some (local_metrics !! name)
      /\ local_metrics !! time = None) ->
  environ w !! "PY_ENV" = Some v ->
  effects (plot_trial trial_spec trial_metrics) w (Raise (KeyError key))
    [] (saved_jobs v (trial_jobs trial_spec local_metrics pre)).
Proof.
  intros Hsplit Hpre Hmissing Henv. unfold plot_trial.
  apply (effects_lookup _ _ _ _ _ _ _ _ Hlocal). rewrite Hsplit.
  unfold trial_jobs. rewrite saved_jobs_map.
  rewrite <- (app_nil_r (concat (map (fun x => saved v _ _) pre))).
  replace (@nil figure)
    with (concat (map (fun pair : string * string =>
                         if decide (pair.1 = "consistencies")
                         then [trial_chart local_metrics (trial_title trial_spec) pair]
                         else []) pre) ++ [])%list.
  - apply for_each_effects_raise.
    + intros [n t] w1 Hin Hw1. rewrite Forall_forall in Hpre.
      apply trial_round_effects; [apply Hpre, Hin|].
      intros w2 Hw2. apply save_image_effects. rewrite Hw2, Hw1. exact Henv.
    + intros w1 Hw1.
      assert (Hraise : forall (A : Type) (rest : pyval -> pyval -> M A),
        (sr ← lift (getitem local_metrics name);
         time_sr ← lift (getitem local_metrics time);
         rest sr time_sr) w1 = (Raise (KeyError key), w1)).
      { intros A rest.
        destruct Hmissing as [[-> Hnone]|(-> & [a Ha] & Hnone)].
        - apply bind_raise. unfold lift, getitem. rewrite Hnone. reflexivity.
        - rewrite (bind_ok _ _ _ _ _ (lift_getitem _ _ _ _ Ha)).
          apply bind_raise. unfold lift, getitem. rewrite Hnone. reflexivity. }
      apply (effects_raise _ _ w1 w1 _ [] []); rewrite ?app_nil_r; auto.
      destruct (decide (name = "consistencies")); apply Hraise.
  - rewrite app_nil_r. pose proof (trial_pairs_before _ _ _ Hsplit) as Hbefore.
    clear -Hbefore. induction Hbefore as [|p pre Hp _ IH]; [reflexivity|].
    cbn [map concat]. rewrite decide_False by exact Hp. exact IH.
Qed.

End TrialMissing.

(** ** File paths *)

Lemma str_app_inj_l (s a b : string) : s ++ a = s ++ b -> a = b.
Proof.
  induction s as [|c s IH]; [auto|].
  change (String c s ++ a) with (String c (s ++ a)).
  change (String c s ++ b) with (String c (s ++ b)).
  intros [= H]. apply IH, H.
Qed.

Lemma str_app_length (a b : string) :
  String.length (a ++ b) = (String.length a + String.length b)%nat.
Proof.
  induction a as [|c a IH]; [reflexivity|].
  change (String c a ++ b) with (String c (a ++ b)).
  cbn [String.length]. rewrite IH. reflexivity.
Qed.

Lemma str_app_inj_r (a b s : string) : a ++ s = b ++ s -> a = b.
Proof.
  revert b. induction a as [|c a IH]; intros [|c' b] H.
  - reflexivity.
  - apply (f_equal String.length) in H. rewrite !str_app_length in H.
    cbn [String.length] in H. lia.
  - apply (f_equal String.length) in H. rewrite !str_app_length in H.
    cbn [String.length] in H. lia.
  - change (String c a ++ s) with (String c (a ++ s)) in H.
    change (String c' b ++ s) with (String c' (b ++ s)) in H.
    injection H as -> H. f_equal. apply IH, H.
Qed.

Section PathFacts.
Context {ext : Externals}.

(** X19. The six charts of one call of [plot_trial] go to six different file
    paths: no chart overwrites another. *)
Theorem plot_trial_paths_distinct (trial_spec : spec)
    (local_metrics : gmap string pyval) :
  NoDup (map snd (trial_jobs trial_spec local_metrics trial_name_time_pairs)).
Proof.
  unfold trial_jobs. rewrite map_map. cbn [snd fst].
  change (NoDup (map (fun s => prepath (spec_meta trial_spec) ++ "_trial_graph_" ++ s)
                   (map (fun pair : string * string =>
                           pair.1 ++ "_vs_" ++ pair.2 ++ ".png")
                      trial_name_time_pairs))).
  apply NoDup_fmap_2.
  - intros a b H. apply str_app_inj_l in H. apply str_app_inj_l in H. exact H.
  - apply (bool_decide_unpack _). vm_compute. exact I.
Qed.

(** X20. The charts of one call of [plot_session], five or eight, go to
    different file paths whatever [df_mode] is. *)
Theorem plot_session_paths_distinct (session_spec : spec)
    (local_metrics : gmap string pyval) (session_df : gmap string (list float))
    (df_mode : string) :
  NoDup (map snd (session_jobs session_spec local_metrics session_df df_mode)).
Proof.
  assert (Hall : NoDup (map (fun pair : string * string =>
                               session_filepath (prepath (spec_meta session_spec))
                                 df_mode pair.1 pair.2)
                          (session_name_time_pairs ++ session_df_name_time_pairs))).
  { change (NoDup (map (fun s => prepath (spec_meta session_spec)
                                 ++ "_session_graph_" ++ df_mode ++ "_" ++ s)
                     (map (fun pair : string * string =>
                             pair.1 ++ "_vs_" ++ pair.2 ++ ".png")
                        (session_name_time_pairs ++ session_df_name_time_pairs)))).
    apply NoDup_fmap_2.
    - intros a b H. do 4 apply str_app_inj_l in H. exact H.
    - apply (bool_decide_unpack _). vm_compute. exact I. }
  unfold session_jobs, session_metrics_jobs, session_df_jobs.
  rewrite map_app in Hall. rewrite map_app, !map_map. cbn [snd fst].
  destruct (decide (df_mode = "eval")); [|exact Hall].
  rewrite app_nil_r. apply NoDup_app in Hall. apply Hall.
Qed.

(** X21. The file path of a chart of [plot_session] tells the [df_mode]: an
    ['eval'] chart and a chart of another mode never share a path. *)
Theorem session_filepath_df_mode (a_prepath df_mode1 df_mode2 name time : string) :
  session_filepath a_prepath df_mode1 name time
  = session_filepath a_prepath df_mode2 name time ->
  df_mode1 = df_mode2.
Proof.
  unfold session_filepath. intros H.
  do 2 apply str_app_inj_l in H. apply str_app_inj_r in H. exact H.
Qed.

End PathFacts.

(** ** These theorems at sample inputs *)

Ltac sample_pairs_ok :=
  repeat (constructor; [split; vm_compute; eexists; reflexivity|]);
  constructor.

Lemma plot_session_shows_and_saves_witness :
  sample_session_metrics !! "local" = Some sample_session_local
  /\ Forall (session_pair_ok sample_session_local) session_name_time_pairs
  /\ Forall (session_df_pair_ok sample_session_df) session_df_name_time_pairs
  /\ environ (sample_world test_env) !! "PY_ENV" = Some "test"
  /\ let jobs := session_jobs sample_spec sample_session_local
                   sample_session_df "train" in
     effects (plot_session sample_spec sample_session_metrics sample_session_df
                "train")
       (sample_world test_env) (Ok tt) (map fst jobs) []
     /\ length jobs = 8%nat.
Proof.
  assert (Hpairs : Forall (session_pair_ok sample_session_local)
                     session_name_time_pairs) by sample_pairs_ok.
  assert (Hdf : Forall (session_df_pair_ok sample_session_df)
                  session_df_name_time_pairs) by sample_pairs_ok.
  split; [reflexivity|]. split; [exact Hpairs|]. split; [exact Hdf|].
  split; [reflexivity|]. intros jobs. split; [|reflexivity].
  destruct (plot_session_shows_and_saves (ext := sample_ext) sample_spec
              sample_session_metrics sample_session_local sample_session_df
              "train" eq_refl (sample_world test_env) "test" Hpairs
              (fun _ => Hdf) eq_refl) as (Hrun & Htest & _).
  rewrite (Htest eq_refl) in Hrun. exact Hrun.
Defined.

Lemma plot_session_without_PY_ENV_witness :
  sample_session_metrics !! "local" = Some sample_session_local
  /\ session_pair_ok sample_session_local ("mean_returns", "frames")
  /\ environ (sample_world ∅) !! "PY_ENV" = None
  /\ effects (plot_session sample_spec sample_session_metrics sample_session_df
                "eval")
       (sample_world ∅) (Raise (KeyError "PY_ENV"))
       [session_chart sample_session_local (session_title sample_spec)
          ("mean_returns", "frames")]
       [].
Proof.
  assert (Hok : session_pair_ok sample_session_local ("mean_returns", "frames"))
    by (split; vm_compute; eexists; reflexivity).
  split; [reflexivity|]. split; [exact Hok|]. split; [reflexivity|].
  apply (plot_session_without_PY_ENV (ext := sample_ext) sample_spec
           sample_session_metrics sample_session_local sample_session_df "eval"
           eq_refl (sample_world ∅) Hok).
  reflexivity.
Defined.

Lemma plot_session_missing_metric_witness :
  let metrics : gmap string (gmap string pyval) :=
    {[ "local" := partial_session_local ]} in
  let pre := [("mean_returns", "frames")] in
  let post := [ ("sample_efficiencies", "frames");
                ("training_efficiencies", "opt_steps");
                ("stabilities", "frames") ] in
  metrics !! "local" = Some partial_session_local
  /\ session_name_time_pairs = (pre ++ ("strengths", "frames") :: post)%list
  /\ Forall (session_pair_ok partial_session_local) pre
  /\ partial_session_local !! "strengths" = None
  /\ environ (sample_world dev_env) !! "PY_ENV" = Some "development"
  /\ let jobs := session_metrics_jobs sample_spec partial_session_local "eval" pre in
     effects (plot_session sample_spec metrics sample_session_df "eval")
       (sample_world dev_env) (Raise (KeyError "strengths"))
       (map fst jobs) (saved_jobs (ext := sample_ext) "development" jobs).
Proof.
  intros metrics pre post.
  assert (Hpre : Forall (session_pair_ok partial_session_local) pre)
    by sample_pairs_ok.
  split; [reflexivity|]. split; [reflexivity|]. split; [exact Hpre|].
  split; [reflexivity|]. split; [reflexivity|].
  apply (plot_session_missing_metric (ext := sample_ext) sample_spec metrics
           partial_session_local sample_session_df "eval" eq_refl
           pre post "strengths" "frames" "strengths" "development"
           (sample_world dev_env) eq_refl Hpre
           (or_introl (conj eq_refl eq_refl)) eq_refl).
Defined.

Lemma plot_session_missing_column_witness :
  let pre := [("loss", "total_t"); ("explore_var", "total_t")] in
  sample_session_metrics !! "local" = Some sample_session_local
  /\ "train" <> "eval"
  /\ Forall (session_pair_ok sample_session_local) session_name_time_pairs
  /\ session_df_name_time_pairs = (pre ++ ("entropy", "total_t") :: [])%list
  /\ Forall (session_df_pair_ok partial_session_df) pre
  /\ partial_session_df !! "entropy" = None
  /\ environ (sample_world dev_env) !! "PY_ENV" = Some "development"
  /\ let jobs :=
       (session_metrics_jobs sample_spec sample_session_local "train"
          session_name_time_pairs
        ++ session_df_jobs sample_spec partial_session_df "train" pre)%list in
     effects (plot_session sample_spec sample_session_metrics partial_session_df
                "train")
       (sample_world dev_env) (Raise (KeyError "entropy"))
       (map fst jobs) (saved_jobs (ext := sample_ext) "development" jobs).
Proof.
  intros pre.
  assert (Hpairs : Forall (session_pair_ok sample_session_local)
                     session_name_time_pairs) by sample_pairs_ok.
  assert (Hpre : Forall (session_df_pair_ok partial_session_df) pre)
    by sample_pairs_ok.
  split; [reflexivity|]. split; [discriminate|]. split; [exact Hpairs|].
  split; [reflexivity|]. split; [exact Hpre|]. split; [reflexivity|].
  split; [reflexivity|].
  apply (plot_session_missing_column (ext := sample_ext) sample_spec
           sample_session_metrics sample_session_local partial_session_df
           "train" eq_refl pre [] "entropy" "total_t" "entropy" "development"
           (sample_world dev_env) ltac:(discriminate) Hpairs eq_refl Hpre
           (or_introl (conj eq_refl eq_refl)) eq_refl).
Defined.

Lemma plot_trial_shows_and_saves_witness :
  sample_trial_metrics !! "local" = Some sample_trial_local
  /\ Forall (trial_pair_ok sample_trial_local) trial_name_time_pairs
  /\ environ (sample_world dev_env) !! "PY_ENV" = Some "development"
  /\ let jobs := trial_jobs (ext := sample_ext) sample_spec sample_trial_local
                   trial_name_time_pairs in
     effects (plot_trial sample_spec sample_trial_metrics)
       (sample_world dev_env) (Ok tt)
       [sr_figure [1%float; 1%float] [0%float; 100%float] (trial_title sample_spec)
          "consistencies" "frames"]
       (saved_jobs (ext := sample_ext) "development" jobs).
Proof.
  assert (Hpairs : Forall (trial_pair_ok sample_trial_local)
                     trial_name_time_pairs) by sample_pairs_ok.
  split; [reflexivity|]. split; [exact Hpairs|]. split; [reflexivity|].
  intros jobs.
  apply (plot_trial_shows_and_saves (ext := sample_ext) sample_spec
           sample_trial_metrics sample_trial_local eq_refl
           (sample_world dev_env) "development" Hpairs eq_refl).
Defined.

Lemma plot_trial_without_PY_ENV_witness :
  sample_trial_metrics !! "local" = Some sample_trial_local
  /\ trial_pair_ok sample_trial_local ("mean_returns", "frames")
  /\ environ (sample_world ∅) !! "PY_ENV" = None
  /\ effects (plot_trial sample_spec sample_trial_metrics) (sample_world ∅)
       (Raise (KeyError "PY_ENV")) [] [].
Proof.
  assert (Hok : trial_pair_ok sample_trial_local ("mean_returns", "frames"))
    by (split; vm_compute; eexists; reflexivity).
  split; [reflexivity|]. split; [exact Hok|]. split; [reflexivity|].
  apply (plot_trial_without_PY_ENV (ext := sample_ext) sample_spec
           sample_trial_metrics sample_trial_local eq_refl (sample_world ∅) Hok).
  reflexivity.
Defined.

Lemma plot_trial_missing_metric_witness :
  let metrics : gmap string (gmap string pyval) :=
    {[ "local" := partial_trial_local ]} in
  let pre := [("mean_returns", "frames")] in
  let post := [ ("sample_efficiencies", "frames");
                ("training_efficiencies", "opt_steps");
                ("stabilities", "frames"); ("consistencies", "frames") ] in
  metrics !! "local" = Some partial_trial_local
  /\ trial_name_time_pairs = (pre ++ ("strengths", "frames") :: post)%list
  /\ Forall (trial_pair_ok partial_trial_local) pre
  /\ partial_trial_local !! "strengths" = None
  /\ environ (sample_world dev_env) !! "PY_ENV" = Some "development"
  /\ effects (plot_trial sample_spec metrics) (sample_world dev_env)
       (Raise (KeyError "strengths")) []
       (saved_jobs (ext := sample_ext) "development"
          (trial_jobs (ext := sample_ext) sample_spec partial_trial_local pre)).
Proof.
  intros metrics pre post.
  assert (Hpre : Forall (trial_pair_ok partial_trial_local) pre)
    by sample_pairs_ok.
  split; [reflexivity|]. split; [reflexivity|]. split; [exact Hpre|].
  split; [reflexivity|]. split; [reflexivity|].
  apply (plot_trial_missing_metric (ext := sample_ext) sample_spec metrics
           partial_trial_local eq_refl pre post "strengths" "frames" "strengths"
           "development" (sample_world dev_env) eq_refl Hpre
           (or_introl (conj eq_refl eq_refl)) eq_refl).
Defined.

Lemma plot_without_local_metrics_witness :
  (∅ : gmap string (gmap string pyval)) !! "local" = None
  /\ plot_session sample_spec ∅ sample_session_df "eval" (sample_world dev_env)
     = (Raise (KeyError "local"), sample_world dev_env)
  /\ plot_trial sample_spec ∅ (sample_world dev_env)
     = (Raise (KeyError "local"), sample_world dev_env).
Proof.
  split; [reflexivity|].
  apply (plot_without_local_metrics (ext := sample_ext) sample_spec ∅
           sample_session_df "eval" (sample_world dev_env)).
  reflexivity.
Defined.

Lemma session_filepath_df_mode_witness :
  session_filepath "data/run" "eval" "loss" "total_t"
  = session_filepath "data/run" "eval" "loss" "total_t"
  /\ "eval" = "eval".
Proof.
  split; [reflexivity|].
  apply (session_filepath_df_mode "data/run" "eval" "eval" "loss" "total_t").
  reflexivity.
Defined.
